(** * make_docs.py: relocation of the release binaries and generation of
      their HTML index

    The script [make_docs.py] ensures that the directory [docs] exists next
    to the script, moves every entry of [target/release] into it and writes
    [docs/index.html], a list of links to the moved entries.

    The development has two halves.  The first one embeds the script and the
    part of the Python library and of the operating system it calls:

    - Python [str] values are lists of Unicode code points ([N]); the text
      literals of the script are ASCII and are written with [lit];
    - [html.escape] is the sequence of five [str.replace] calls of
      Lib/html/__init__.py;
    - the file system is a tree ([node]) whose root is the directory that
      holds the script, [Path(__file__).parent]; a directory is an
      association list in enumeration order, which is the order
      [os.listdir] yields;
    - [pathlib] paths are the root [Here] or a [Child] of a path, so that
      [p / name], [p.parent] and [p.name] are the constructor and its
      projections;
    - the calls are POSIX ones: [mkdir], [rename], [open] with truncation;
      a text file is written without newline translation.  The tree has no
      permissions, links or other processes: a call fails only for what
      the tree itself shows (a missing component, a file where a directory
      is needed, a name collision between kinds) and [write_text] for a
      code point that UTF-8 cannot encode (a lone surrogate, which
      [os.listdir] produces for undecodable file names);
    - a computation is a function from the tree to an outcome and the tree
      it leaves behind; an exception leaves the tree as the failing call
      left it, and nothing in the script catches one.

    The second half states and proves the properties of the script. *)

From Stdlib.Strings Require Import String Ascii Byte.
From Stdlib Require Import List NArith ZArith Bool Lia.
Import ListNotations.

#[local] Set Warnings "-register-all".

Local Open Scope N_scope.
Local Open Scope list_scope.

(** ** Python strings *)

Module PyStr.

(** A [str] is a sequence of code points. *)
Definition str := list N.

(** The code points of an ASCII literal. *)
Definition lit (s : String.string) : str :=
  map Ascii.N_of_ascii (String.list_ascii_of_string s).

Arguments lit s%_string_scope.

Definition str_eq_dec : forall a b : str, {a = b} + {a <> b} :=
  list_eq_dec N.eq_dec.

(** The two characters that a literal here cannot hold, or holds badly. *)
Definition QUOT : N := 34.
Definition NL : N := 10.

(** [s.replace(old, new)] for a pattern [old] of one character. *)
Definition str_replace_char (old : N) (new : str) (s : str) : str :=
  flat_map (fun c => if c =? old then new else [c]) s.

(** [html.escape(s, quote)] of Lib/html/__init__.py: the ampersand is
    replaced first, then the two angle brackets and, when [quote] is set,
    the double quote (by the entity quot) and the apostrophe (by the
    numeric entity x27), each by one [str.replace] on the result of the
    previous one. *)
Definition escape (s : str) (quote : bool) : str :=
  let s := str_replace_char 38 (lit "&amp;") s in
  let s := str_replace_char 60 (lit "&lt;") s in
  let s := str_replace_char 62 (lit "&gt;") s in
  if quote then
    let s := str_replace_char QUOT (lit "&quot;") s in
    let s := str_replace_char 39 (lit "&#x27;") s in
    s
  else s.

(** What the documentation of [html.escape] says, one character at a time:
    the entity of a character, or the character itself. *)
Definition entity (c : N) : str :=
  if c =? 38 then lit "&amp;"
  else if c =? 60 then lit "&lt;"
  else if c =? 62 then lit "&gt;"
  else if c =? QUOT then lit "&quot;"
  else if c =? 39 then lit "&#x27;"
  else [c].

Definition escape_spec (s : str) : str := flat_map entity s.

(** *** The UTF-8 codec *)

Definition byte_of_N (n : N) : byte :=
  match Byte.of_N n with Some b => b | None => x00 end.

Definition is_surrogate (c : N) : bool := (0xD800 <=? c) && (c <=? 0xDFFF).

(** A code point that the strict UTF-8 codec accepts. *)
Definition encodable (c : N) : bool := (c <? 0x110000) && negb (is_surrogate c).

Definition utf8_char (c : N) : list byte :=
  if c <? 0x80 then [byte_of_N c]
  else if c <? 0x800 then
    [byte_of_N (N.lor 0xC0 (N.shiftr c 6));
     byte_of_N (N.lor 0x80 (N.land c 0x3F))]
  else if c <? 0x10000 then
    [byte_of_N (N.lor 0xE0 (N.shiftr c 12));
     byte_of_N (N.lor 0x80 (N.land (N.shiftr c 6) 0x3F));
     byte_of_N (N.lor 0x80 (N.land c 0x3F))]
  else
    [byte_of_N (N.lor 0xF0 (N.shiftr c 18));
     byte_of_N (N.lor 0x80 (N.land (N.shiftr c 12) 0x3F));
     byte_of_N (N.lor 0x80 (N.land (N.shiftr c 6) 0x3F));
     byte_of_N (N.lor 0x80 (N.land c 0x3F))].

Definition utf8 (s : str) : list byte := flat_map utf8_char s.

(** [s.encode('utf-8')]; [None] is [UnicodeEncodeError]. *)
Definition encode_utf8 (s : str) : option (list byte) :=
  if forallb encodable s then Some (utf8 s) else None.



(** The bytes of an ASCII literal. *)
Definition blit (s : String.string) : list byte :=
  map Ascii.byte_of_ascii (String.list_ascii_of_string s).

Arguments blit s%_string_scope.

End PyStr.
Import PyStr.

(** ** The file system *)

Module Posix.

(** A file with its bytes, or a directory with its entries in the order a
    listing yields them. *)
Inductive node : Type :=
| File (data : list byte)
| Dir (entries : list (str * node)).

Definition dirent : Type := str * node.

(** A [pathlib] path under the directory of the script. *)
Inductive path : Type :=
| Here
| Child (parent : path) (name : str).

Notation "p // n" := (Child p n) (at level 40, left associativity).

(** [p.parent] (the root is its own parent) and [p.name]. *)
Definition parent (p : path) : path :=
  match p with Here => Here | Child q _ => q end.

Definition name (p : path) : str :=
  match p with Here => [] | Child _ n => n end.

Fixpoint path_eqb (p q : path) : bool :=
  match p, q with
  | Here, Here => true
  | Child p' a, Child q' b => path_eqb p' q' && (if str_eq_dec a b then true else false)
  | _, _ => false
  end.

(** [inside p q]: [q] lies strictly below [p]. *)
Fixpoint inside (p q : path) : bool :=
  match q with
  | Here => false
  | Child q' _ => path_eqb p q' || inside p q'
  end.

Inductive errno : Type := ENOTEMPTY | EINVAL | EBUSY.

(** The exceptions the calls of the script raise. *)
Inductive exn : Type :=
| FileNotFoundError
| FileExistsError
| NotADirectoryError
| IsADirectoryError
| OSError (code : errno)
| UnicodeEncodeError.

(** *** One directory *)

Fixpoint dir_lookup (n : str) (es : list dirent) : option node :=
  match es with
  | [] => None
  | (m, x) :: rest => if str_eq_dec n m then Some x else dir_lookup n rest
  end.

(** The names of a directory are distinct; removing a name drops every
    entry that bears it. *)
Definition dir_remove (n : str) (es : list dirent) : list dirent :=
  filter (fun e => if str_eq_dec n (fst e) then false else true) es.

(** A new entry goes to the end, an existing one is replaced where it is. *)
Fixpoint dir_put (n : str) (x : node) (es : list dirent) : list dirent :=
  match es with
  | [] => [(n, x)]
  | (m, y) :: rest =>
      if str_eq_dec n m then (n, x) :: rest else (m, y) :: dir_put n x rest
  end.

Definition dir_names (es : list dirent) : list str := map fst es.

(** *** The tree *)

(** Path resolution, with the error of the first component that fails. *)
Fixpoint stat (p : path) (root : node) : exn + node :=
  match p with
  | Here => inr root
  | Child q n =>
      match stat q root with
      | inl e => inl e
      | inr (File _) => inl NotADirectoryError
      | inr (Dir es) =>
          match dir_lookup n es with
          | Some x => inr x
          | None => inl FileNotFoundError
          end
      end
  end.

(** [store p x root]: the tree with [x] at [p], when the parent of [p] is a
    directory. *)
Fixpoint store (p : path) (x : node) (root : node) : node :=
  match p with
  | Here => x
  | Child q n =>
      match stat q root with
      | inr (Dir es) => store q (Dir (dir_put n x es)) root
      | _ => root
      end
  end.

(** [unlink p root]: the tree without the entry at [p]. *)
Definition unlink (p : path) (root : node) : node :=
  match p with
  | Here => root
  | Child q n =>
      match stat q root with
      | inr (Dir es) => store q (Dir (dir_remove n es)) root
      | _ => root
      end
  end.

(** [p +/+ r]: the path [r] taken from [p]. *)
Fixpoint papp (p r : path) : path :=
  match r with
  | Here => p
  | Child r' n => Child (papp p r') n
  end.

(** The entries of the directory a [stat] found, none when it found no
    directory. *)
Definition entries_of (r : exn + node) : list dirent :=
  match r with inr (Dir es) => es | _ => [] end.

(** *** Computations that read and change the tree, or raise *)

Definition M (A : Type) : Type := node -> (exn + A) * node.

Definition ret {A : Type} (a : A) : M A := fun fs => (inr a, fs).

Definition raise {A : Type} (e : exn) : M A := fun fs => (inl e, fs).

Definition bind {A B : Type} (m : M A) (k : A -> M B) : M B :=
  fun fs =>
    match m fs with
    | (inl e, fs') => (inl e, fs')
    | (inr a, fs') => k a fs'
    end.

(** [try: m except e: handler e]. *)
Definition try_except {A : Type} (m : M A) (handler : exn -> M A) : M A :=
  fun fs =>
    match m fs with
    | (inl e, fs') => handler e fs'
    | (inr a, fs') => (inr a, fs')
    end.

Definition get : M node := fun fs => (inr fs, fs).

Definition modify (f : node -> node) : M unit := fun fs => (inr tt, f fs).

Notation "x <- m ;; k" := (bind m (fun x => k))
  (at level 61, m at next level, right associativity).
Notation "m ;;; k" := (bind m (fun _ => k))
  (at level 61, right associativity).

(** *** The calls *)

(** [os.mkdir(p)]. *)
Definition os_mkdir (p : path) : M unit :=
  match p with
  | Here => raise FileExistsError
  | Child q n =>
      fs <- get ;;
      match stat q fs with
      | inl e => raise e
      | inr (File _) => raise NotADirectoryError
      | inr (Dir es) =>
          match dir_lookup n es with
          | Some _ => raise FileExistsError
          | None => modify (store p (Dir []))
          end
      end
  end.

(** [p.is_dir()]. *)
Definition is_dir (p : path) : M bool :=
  fs <- get ;;
  ret (match stat p fs with inr (Dir _) => true | _ => false end).

(** [Path.mkdir] of Lib/pathlib: [os.mkdir] under a [try] with two handlers.
    [FileNotFoundError] is re-raised without [parents] or at the root, and
    otherwise the parent is made with [parents=True, exist_ok=True] before
    the path itself is made again without [parents]; any other [OSError] is
    re-raised unless [exist_ok] is set and the path is a directory.

    This is the second attempt, [p.mkdir(parents=False, exist_ok)]. *)
Definition mkdir_no_parents (p : path) (exist_ok : bool) : M unit :=
  try_except (os_mkdir p) (fun e =>
    match e with
    | FileNotFoundError => raise e
    | _ =>
        d <- is_dir p ;;
        if negb exist_ok || negb d then raise e else ret tt
    end).

(** [p.mkdir(parents=True, exist_ok)]. *)
Fixpoint mkdir_parents (p : path) (exist_ok : bool) : M unit :=
  try_except (os_mkdir p) (fun e =>
    match e with
    | FileNotFoundError =>
        match p with
        | Here => raise e
        | Child q _ =>
            mkdir_parents q true ;;;
            mkdir_no_parents p exist_ok
        end
    | _ =>
        d <- is_dir p ;;
        if negb exist_ok || negb d then raise e else ret tt
    end).

Definition Path_mkdir (p : path) (parents exist_ok : bool) : M unit :=
  if parents then mkdir_parents p exist_ok else mkdir_no_parents p exist_ok.

(** [os.listdir(p)]. *)
Definition os_listdir (p : path) : M (list str) :=
  fs <- get ;;
  match stat p fs with
  | inl e => raise e
  | inr (File _) => raise NotADirectoryError
  | inr (Dir es) => ret (dir_names es)
  end.

(** [p.iterdir()]: the children of [p], from one listing taken when the loop
    starts. *)
Definition iterdir (p : path) : M (list path) :=
  names <- os_listdir p ;;
  ret (map (Child p) names).

(** What [rename] answers when the entry [x] is to take the place of
    [target]: an entry already there is replaced when both are files, or when
    both are directories and the one in place is empty. *)
Definition rename_conflict (x : node) (target : option node) : option exn :=
  match target, x with
  | None, _ => None
  | Some (File _), File _ => None
  | Some (File _), Dir _ => Some NotADirectoryError
  | Some (Dir _), File _ => Some IsADirectoryError
  | Some (Dir []), Dir _ => None
  | Some (Dir (_ :: _)), Dir _ => Some (OSError ENOTEMPTY)
  end.

(** [os.rename(src, dst)], which [Path.rename] calls: the entry at [src]
    leaves its directory and enters the directory of [dst] under the name of
    [dst]. *)
Definition os_rename (src dst : path) : M unit :=
  match src, dst with
  | Child _ _, Child dd dn =>
      fs <- get ;;
      match stat src fs with
      | inl e => raise e
      | inr x =>
          match stat dd fs with
          | inl e => raise e
          | inr (File _) => raise NotADirectoryError
          | inr (Dir des) =>
              if path_eqb src dst then ret tt
              else if inside src dst then raise (OSError EINVAL)
              else
                match rename_conflict x (dir_lookup dn des) with
                | Some e => raise e
                | None => modify (fun fs => store dst x (unlink src fs))
                end
          end
      end
  | _, _ => raise (OSError EBUSY)
  end.

Definition Path_rename (src dst : path) : M unit := os_rename src dst.

(** [open(p, 'w')]: the file is created, or emptied when it exists. *)
Definition open_w (p : path) : M unit :=
  match p with
  | Here => raise IsADirectoryError
  | Child q n =>
      fs <- get ;;
      match stat q fs with
      | inl e => raise e
      | inr (File _) => raise NotADirectoryError
      | inr (Dir es) =>
          match dir_lookup n es with
          | Some (Dir _) => raise IsADirectoryError
          | _ => modify (store p (File []))
          end
      end
  end.

(** [p.write_text(data, 'utf-8')]: the file is opened for writing, then the
    text is encoded and written. *)
Definition write_text (p : path) (data : str) : M unit :=
  open_w p ;;;
  match encode_utf8 data with
  | None => raise UnicodeEncodeError
  | Some bs => modify (store p (File bs))
  end.

(** The exit status of the interpreter: an exception that reaches the top
    level prints its traceback and gives status 1. *)
Definition exit_status {A : Type} (r : exn + A) : Z :=
  match r with inr _ => 0%Z | inl _ => 1%Z end.

Definition traceback {A : Type} (r : exn + A) : option exn :=
  match r with inr _ => None | inl e => Some e end.

End Posix.
Import Posix.

(** ** The script *)

Module MakeDocs.

(** [DOCS_DIR = Path(__file__).parent / "docs"]. *)
Definition DOCS_DIR : path := Here // lit "docs".

(** [Path(__file__).parent / "target/release"]: two components. *)
Definition RELEASE_DIR : path := Here // lit "target" // lit "release".

Definition INDEX_HTML : path := DOCS_DIR // lit "index.html".

(** The initial [index_content]: two lines. *)
Definition index_head : str :=
  lit "<h1>Binary builds</h1>" ++ [NL] ++ lit "<ul>" ++ [NL].

Definition index_foot : str := lit "</ul>" ++ [NL].

(** The f-string of the loop. *)
Definition list_item (link : str) : str :=
  lit "<li><a href=" ++ [QUOT] ++ link ++ [QUOT] ++ lit ">" ++ link
    ++ lit "</a></li>" ++ [NL].

(** The body of the [for] loop, over the files still to visit. *)
Fixpoint for_files (files : list path) (index_content : str) : M str :=
  match files with
  | [] => ret index_content
  | file :: rest =>
      Path_rename file (DOCS_DIR // name file) ;;;
      let link := escape (name file) true in
      let index_content := index_content ++ list_item link in
      for_files rest index_content
  end.

(** The script up to the end of the loop, returning [index_content]. *)
Definition relocate : M str :=
  Path_mkdir DOCS_DIR true true ;;;
  let index_content := index_head in
  files <- iterdir RELEASE_DIR ;;
  for_files files index_content.

(** The whole script. *)
Definition make_docs : M unit :=
  index_content <- relocate ;;
  let index_content := index_content ++ index_foot in
  write_text INDEX_HTML index_content.

(** The line the loop appends for the file name [n]. *)
Definition entry_line (n : str) : str := list_item (escape n true).


(** The document for a list of names. *)
Definition document (names : list str) : str :=
  index_head ++ concat (map entry_line names) ++ index_foot.

End MakeDocs.
Import MakeDocs.

(** ** Sample trees *)

Module Samples.

Definition bin (s : String.string) : node := File (blit s).

Arguments bin s%_string_scope.

Definition script : dirent := (lit "make_docs.py", bin "import html").

(** A first run after a build: three binaries, no [docs] yet. *)
Definition fresh : node :=
  Dir [script;
       (lit "target",
        Dir [(lit "release",
              Dir [(lit "tool-linux", bin "ELF");
                   (lit "tool-windows.exe", bin "MZ");
                   (lit "tool & co.bin", bin "CO")])])].

(** No build yet: neither [target] nor [docs]. *)
Definition unbuilt : node := Dir [script].

(** [docs] is a regular file. *)
Definition docs_is_file : node := Dir [script; (lit "docs", bin "notes")].

(** A second run: [docs] holds what an earlier run left, the build made one
    new binary. *)
Definition second_run : node :=
  Dir [script;
       (lit "docs", Dir [(lit "old.bin", bin "OLD"); (lit "index.html", bin "<h1>")]);
       (lit "target", Dir [(lit "release", Dir [(lit "new.bin", bin "NEW")])])].

(** A second run with nothing new to move. *)
Definition second_run_empty : node :=
  Dir [script;
       (lit "docs", Dir [(lit "old.bin", bin "OLD")]);
       (lit "target", Dir [(lit "release", Dir [])])].

(** An empty build and no [docs]. *)
Definition empty_build : node :=
  Dir [script; (lit "target", Dir [(lit "release", Dir [])])].



(** The build holds [index.html] and [deps]; [docs] holds an index of an
    earlier run and a directory [deps] that is not empty, on which the move
    of the file [deps] fails. *)
Definition blocked : node :=
  Dir [script;
       (lit "docs",
        Dir [(lit "index.html", bin "<h1>");
             (lit "deps", Dir [(lit "x.d", bin "")])]);
       (lit "target",
        Dir [(lit "release",
              Dir [(lit "index.html", bin "mine"); (lit "deps", bin "D")])])].

(** [blocked] after the move of [index.html]. *)
Definition blocked_after_one : node :=
  Dir [script;
       (lit "docs",
        Dir [(lit "index.html", bin "mine");
             (lit "deps", Dir [(lit "x.d", bin "")])]);
       (lit "target",
        Dir [(lit "release", Dir [(lit "deps", bin "D")])])].

(** The build holds a file whose name UTF-8 cannot encode. *)
Definition undecodable : node :=
  Dir [script;
       (lit "target", Dir [(lit "release", Dir [([0xDCFF], bin "ELF")])])].

(** [target/release] is a regular file. *)
Definition release_is_file : node :=
  Dir [script; (lit "target", Dir [(lit "release", bin "ELF")])].

(** A destination that has nothing to do with the build, and files beside
    the two directories of the script. *)
Definition with_neighbours : node :=
  Dir [script;
       (lit "README.md", bin "# tool");
       (lit "src", Dir [(lit "main.rs", bin "fn main")]);
       (lit "docs", Dir [(lit "tool", Dir []); (lit "old.bin", bin "OLD")]);
       (lit "target",
        Dir [(lit "debug", Dir [(lit "tool", bin "DBG")]);
             (lit "release",
              Dir [(lit "tool.d", bin "D"); (lit "tool", bin "ELF")])])].

End Samples.

(** ** Properties of the strings *)

Section Strings.

Lemma flat_map_flat_map (A B C : Type) (f : A -> list B) (g : B -> list C) (l : list A) :
  flat_map g (flat_map f l) = flat_map (fun a => flat_map g (f a)) l.
Proof.
  induction l as [|a l IH]; simpl; [reflexivity|].
  now rewrite flat_map_app, IH.
Qed.

(** The five replacements in sequence are one pass over the characters:
    no entity holds a character that a later replacement looks for. *)
Lemma escape_char_by_char (c : N) :
  flat_map (fun c4 => if c4 =? 39 then lit "&#x27;" else [c4])
    (flat_map (fun c3 => if c3 =? QUOT then lit "&quot;" else [c3])
       (flat_map (fun c2 => if c2 =? 62 then lit "&gt;" else [c2])
          (flat_map (fun c1 => if c1 =? 60 then lit "&lt;" else [c1])
             (if c =? 38 then lit "&amp;" else [c]))))
  = entity c.
Proof.
  unfold entity, QUOT.
  destruct (N.eqb_spec c 38) as [->|H38]; [reflexivity|].
  cbn [flat_map app].
  destruct (N.eqb_spec c 60) as [->|H60]; [reflexivity|].
  cbn [flat_map app].
  destruct (N.eqb_spec c 62) as [->|H62]; [reflexivity|].
  cbn [flat_map app].
  destruct (N.eqb_spec c 34) as [->|H34]; [reflexivity|].
  cbn [flat_map app].
  destruct (N.eqb_spec c 39) as [->|H39]; reflexivity.
Qed.

Lemma escape_refines (s : str) : escape s true = escape_spec s.
Proof.
  unfold escape, escape_spec, str_replace_char.
  rewrite !flat_map_flat_map.
  apply flat_map_ext. intros c.
  rewrite <- (escape_char_by_char c).
  rewrite !flat_map_flat_map. reflexivity.
Qed.

Lemma entity_cases (c : N) :
  (c = 38 /\ entity c = [38; 97; 109; 112; 59]) \/
  (c = 60 /\ entity c = [38; 108; 116; 59]) \/
  (c = 62 /\ entity c = [38; 103; 116; 59]) \/
  (c = 34 /\ entity c = [38; 113; 117; 111; 116; 59]) \/
  (c = 39 /\ entity c = [38; 35; 120; 50; 55; 59]) \/
  (c <> 38 /\ c <> 60 /\ c <> 62 /\ c <> 34 /\ c <> 39 /\ entity c = [c]).
Proof.
  unfold entity, QUOT.
  destruct (N.eqb_spec c 38) as [->|H38]; [now left|].
  destruct (N.eqb_spec c 60) as [->|H60]; [now right; left|].
  destruct (N.eqb_spec c 62) as [->|H62]; [now right; right; left|].
  destruct (N.eqb_spec c 34) as [->|H34]; [now right; right; right; left|].
  destruct (N.eqb_spec c 39) as [->|H39]; [now right; right; right; right; left|].
  now repeat right.
Qed.

Ltac entity_split c :=
  let H := fresh "H" in
  destruct (entity_cases c)
    as [[-> H]|[[-> H]|[[-> H]|[[-> H]|[[-> H]|(?&?&?&?&?&H)]]]]];
  rewrite H; clear H.

(** An escaped text holds no double quote. *)
Lemma escape_spec_no_quot (s : str) : ~ In QUOT (escape_spec s).
Proof.
  unfold escape_spec, QUOT. induction s as [|c s IH]; simpl; [tauto|].
  rewrite in_app_iff. intros [H|H]; [|exact (IH H)].
  revert H. entity_split c; simpl; intros H;
    repeat (destruct H as [H|H]; [try discriminate H; congruence|]); exact H.
Qed.

(** The entities form a prefix code. *)
Lemma entity_app_inj (a b : N) (r1 r2 : str) :
  entity a ++ r1 = entity b ++ r2 -> a = b /\ r1 = r2.
Proof.
  entity_split a; entity_split b; simpl; intros E;
    injection E as E; subst; try discriminate; try congruence; auto.
Qed.

Lemma escape_spec_inj (s t : str) : escape_spec s = escape_spec t -> s = t.
Proof.
  unfold escape_spec. revert t.
  induction s as [|a s IH]; intros [|b t]; simpl; intros E.
  - reflexivity.
  - exfalso. revert E. entity_split b; discriminate.
  - exfalso. revert E. entity_split a; discriminate.
  - apply entity_app_inj in E as [-> E]. f_equal. now apply IH.
Qed.

Lemma escape_inj (s t : str) : escape s true = escape t true -> s = t.
Proof. rewrite !escape_refines. apply escape_spec_inj. Qed.

(** Two texts without [q] that are followed by [q] are equal when the
    whole texts are. *)
Lemma app_sep_inj (q : N) (l1 l2 r1 r2 : str) :
  ~ In q l1 -> ~ In q l2 ->
  l1 ++ q :: r1 = l2 ++ q :: r2 -> l1 = l2 /\ r1 = r2.
Proof.
  revert l2. induction l1 as [|a l1 IH]; intros [|b l2] H1 H2 E; simpl in *.
  - injection E as E. auto.
  - injection E as E _. exfalso. apply H2. now left.
  - injection E as E _. exfalso. apply H1. left. congruence.
  - injection E as -> E. destruct (IH l2) as [-> ->]; auto.
Qed.

(** *** UTF-8 *)

Lemma utf8_app (s t : str) : utf8 (s ++ t) = utf8 s ++ utf8 t.
Proof. apply flat_map_app. Qed.

Lemma utf8_concat (l : list str) : utf8 (concat l) = concat (map utf8 l).
Proof.
  induction l as [|s l IH]; simpl; [reflexivity|].
  now rewrite utf8_app, IH.
Qed.

Lemma encode_utf8_Some (s : str) (bs : list byte) :
  encode_utf8 s = Some bs <-> forallb encodable s = true /\ bs = utf8 s.
Proof.
  unfold encode_utf8. destruct (forallb encodable s); split.
  - intros [= <-]. auto.
  - intros [_ ->]. reflexivity.
  - discriminate.
  - intros [[=] _].
Qed.

End Strings.

(** ** Properties of one directory *)

Section Directory.

Implicit Types (n m : str) (x : node) (es : list dirent).

Lemma dir_lookup_put_eq n x es : dir_lookup n (dir_put n x es) = Some x.
Proof.
  induction es as [|[k y] es IH]; simpl.
  - now destruct (str_eq_dec n n).
  - destruct (str_eq_dec n k) as [->|Hk]; simpl.
    + now destruct (str_eq_dec k k).
    + now destruct (str_eq_dec n k).
Qed.

Lemma dir_lookup_put_ne n m x es :
  n <> m -> dir_lookup m (dir_put n x es) = dir_lookup m es.
Proof.
  intros Hnm. induction es as [|[k y] es IH]; simpl.
  - destruct (str_eq_dec m n); congruence.
  - destruct (str_eq_dec n k) as [->|Hk]; simpl.
    + destruct (str_eq_dec m k); congruence.
    + destruct (str_eq_dec m k); congruence.
Qed.

Lemma dir_lookup_remove_eq n es : dir_lookup n (dir_remove n es) = None.
Proof.
  unfold dir_remove. induction es as [|[k y] es IH]; simpl; [reflexivity|].
  destruct (str_eq_dec n k) as [->|Hk]; simpl; [exact IH|].
  now destruct (str_eq_dec n k).
Qed.

Lemma dir_lookup_remove_ne n m es :
  n <> m -> dir_lookup m (dir_remove n es) = dir_lookup m es.
Proof.
  intros Hnm. unfold dir_remove.
  induction es as [|[k y] es IH]; simpl; [reflexivity|].
  destruct (str_eq_dec n k) as [->|Hk]; simpl.
  - destruct (str_eq_dec m k); congruence.
  - destruct (str_eq_dec m k); congruence.
Qed.

Lemma dir_lookup_None n es : dir_lookup n es = None <-> ~ In n (dir_names es).
Proof.
  unfold dir_names. induction es as [|[k y] es IH]; simpl; [tauto|].
  destruct (str_eq_dec n k) as [->|Hk].
  - split; [discriminate|]. intros H. exfalso. apply H. now left.
  - rewrite IH. split; [intros H [E|E]; congruence|tauto].
Qed.

Lemma dir_lookup_Some n es :
  In n (dir_names es) <-> exists x, dir_lookup n es = Some x.
Proof.
  destruct (dir_lookup n es) as [x|] eqn:E.
  - split; [eauto|]. intros _.
    destruct (in_dec str_eq_dec n (dir_names es)) as [H|H]; [exact H|].
    apply dir_lookup_None in H. congruence.
  - apply dir_lookup_None in E. split; [tauto|]. intros [x [=]].
Qed.

(** A directory in which no name is found is empty. *)
Lemma dir_lookup_nothing es : (forall n, dir_lookup n es = None) -> es = [].
Proof.
  destruct es as [|[k y] es]; [reflexivity|]. intros H.
  specialize (H k). simpl in H. now destruct (str_eq_dec k k).
Qed.

Lemma dir_names_put n m x es :
  In m (dir_names (dir_put n x es)) <-> m = n \/ In m (dir_names es).
Proof.
  rewrite !dir_lookup_Some.
  destruct (str_eq_dec n m) as [->|Hnm].
  - rewrite dir_lookup_put_eq. split; eauto.
  - rewrite dir_lookup_put_ne by assumption.
    split; [eauto|]. intros [E|H]; congruence.
Qed.

End Directory.

(** ** Properties of the tree *)

Section Tree.

Implicit Types (p q r c : path) (n m : str) (x y : node) (fs : node).

Lemma stat_papp p r fs :
  stat (papp p r) fs =
  match stat p fs with inl e => inl e | inr x => stat r x end.
Proof.
  induction r as [|r IH k]; simpl.
  - now destruct (stat p fs).
  - rewrite IH. now destruct (stat p fs).
Qed.

(** Storing at a path that resolves makes the path resolve to what was
    stored. *)
Lemma stat_store_same p x y fs :
  stat p fs = inr y -> stat p (store p x fs) = inr x.
Proof.
  revert x y. induction p as [|q IH n]; intros x y; simpl; [reflexivity|].
  destruct (stat q fs) as [e|[d|es]] eqn:Eq; try discriminate.
  intros _. rewrite (IH _ _ eq_refl). now rewrite dir_lookup_put_eq.
Qed.

(** Storing an entry, new or not, in a directory. *)
Lemma stat_store_child q n x es fs :
  stat q fs = inr (Dir es) ->
  stat (q // n) (store (q // n) x fs) = inr x /\
  stat q (store (q // n) x fs) = inr (Dir (dir_put n x es)).
Proof.
  intros Eq. simpl. rewrite Eq.
  rewrite (stat_store_same q _ _ fs Eq).
  now rewrite dir_lookup_put_eq.
Qed.

(** Two paths that part at the names [m] and [n] below [c] do not see each
    other's stores. *)
Lemma stat_store_frame c n m r1 r2 x fs :
  n <> m ->
  stat (papp (c // m) r1) (store (papp (c // n) r2) x fs)
  = stat (papp (c // m) r1) fs.
Proof.
  intros Hnm. revert x. induction r2 as [|r2 IH k]; intros x.
  - cbn [papp store].
    destruct (stat c fs) as [e|[d|es]] eqn:Ec; try reflexivity.
    rewrite !stat_papp. cbn [stat].
    rewrite (stat_store_same c _ _ fs Ec), Ec.
    now rewrite dir_lookup_put_ne.
  - cbn [papp store].
    destruct (stat (papp (c // n) r2) fs) as [e|[d|es]]; try reflexivity.
    apply IH.
Qed.

End Tree.

(** ** Properties of the calls *)

Section Calls.

Implicit Types (p q : path) (n m : str) (x : node) (fs : node)
  (ses des : list dirent).

(** [Path.mkdir(parents=True, exist_ok=True)] on a directory does nothing. *)
Lemma mkdir_parents_present p es fs :
  stat p fs = inr (Dir es) -> mkdir_parents p true fs = (inr tt, fs).
Proof.
  destruct p as [|q n]; intros E.
  - simpl in E. injection E as ->. reflexivity.
  - cbn [mkdir_parents]. unfold try_except, os_mkdir, bind, get.
    pose proof E as E'. simpl in E'.
    destruct (stat q fs) as [e|[d|qs]]; try discriminate.
    destruct (dir_lookup n qs) as [y|] eqn:El; try discriminate.
    unfold raise, is_dir, bind, get, ret. now rewrite E.
Qed.

Lemma os_mkdir_ok p fs fs1 :
  os_mkdir p fs = (inr tt, fs1) -> stat p fs1 = inr (Dir []).
Proof.
  destruct p as [|q n]; [discriminate|].
  unfold os_mkdir, bind, get.
  destruct (stat q fs) as [e|[d|qs]] eqn:Eq; try discriminate.
  destruct (dir_lookup n qs) as [y|] eqn:El; try discriminate.
  unfold modify. intros [= <-].
  now destruct (stat_store_child q n (Dir []) qs fs Eq) as [H _].
Qed.

Lemma os_mkdir_raise p e fs fs1 : os_mkdir p fs = (inl e, fs1) -> fs1 = fs.
Proof.
  destruct p as [|q n]; [now intros [= _ <-]|].
  unfold os_mkdir, bind, get.
  destruct (stat q fs) as [e'|[d|qs]]; try now intros [= _ <-].
  destruct (dir_lookup n qs) as [y|]; [now intros [= _ <-]|discriminate].
Qed.

(** The handler of the errors that [exist_ok] forgives. *)
Lemma exist_ok_handler p e fs fs1 :
  (d <- is_dir p ;; if negb true || negb d then raise e else ret tt) fs
    = (inr tt, fs1) ->
  fs1 = fs /\ exists es, stat p fs = inr (Dir es).
Proof.
  unfold is_dir, bind, get, ret, raise.
  destruct (stat p fs) as [e'|[d|es]]; simpl; try discriminate.
  intros [= <-]. eauto.
Qed.

Lemma mkdir_no_parents_makes p fs fs1 :
  mkdir_no_parents p true fs = (inr tt, fs1) ->
  exists es, stat p fs1 = inr (Dir es).
Proof.
  unfold mkdir_no_parents, try_except.
  destruct (os_mkdir p fs) as [[e|[]] fs0] eqn:Eo.
  - destruct e; try discriminate;
      intros H; apply exist_ok_handler in H as [-> H]; exact H.
  - intros [= <-]. apply os_mkdir_ok in Eo. eauto.
Qed.

(** When it succeeds the path is a directory. *)
Lemma mkdir_parents_makes p fs fs1 :
  mkdir_parents p true fs = (inr tt, fs1) ->
  exists es, stat p fs1 = inr (Dir es).
Proof.
  destruct p as [|q n].
  - exact (mkdir_no_parents_makes Here fs fs1).
  - cbn [mkdir_parents]. unfold try_except.
    destruct (os_mkdir (q // n) fs) as [[e|[]] fs0] eqn:Eo.
    + destruct e;
        try (intros H; apply exist_ok_handler in H as [-> H]; exact H).
      unfold bind. destruct (mkdir_parents q true fs0) as [[e'|[]] fs2];
        [discriminate|]. apply mkdir_no_parents_makes.
    + intros [= <-]. apply os_mkdir_ok in Eo. eauto.
Qed.

(** The ensure-destination step of the script, by what [docs] is. *)
Lemma ensure_destination_cases fs :
  Path_mkdir DOCS_DIR true true fs =
  match stat DOCS_DIR fs with
  | inr (Dir _) => (inr tt, fs)
  | inr (File _) => (inl FileExistsError, fs)
  | inl FileNotFoundError => (inr tt, store DOCS_DIR (Dir []) fs)
  | inl e => (inl e, fs)
  end.
Proof.
  unfold Path_mkdir, DOCS_DIR. cbn [mkdir_parents stat store].
  unfold try_except, os_mkdir, bind, get. cbn [stat].
  destruct fs as [d|top]; [reflexivity|].
  destruct (dir_lookup (lit "docs") top) as [[d|ys]|] eqn:El.
  - unfold raise, is_dir, bind, get, ret. cbn [stat]. now rewrite El.
  - unfold raise, is_dir, bind, get, ret. cbn [stat]. now rewrite El.
  - reflexivity.
Qed.

End Calls.

(** ** The loop of the script *)

Section Loop.

Implicit Types (n m : str) (x : node) (fs : node) (ses des : list dirent)
  (ns : list str) (acc : str).

Lemma docs_not_target : lit "target" <> lit "docs".
Proof. discriminate. Qed.

(** The two directories of the script do not see each other's stores. *)
Lemma stat_docs_store_release x fs :
  stat DOCS_DIR (store RELEASE_DIR x fs) = stat DOCS_DIR fs.
Proof.
  exact (stat_store_frame Here (lit "target") (lit "docs") Here
           (Here // lit "release") x fs docs_not_target).
Qed.

Lemma stat_release_store_docs_child n x fs :
  stat RELEASE_DIR (store (DOCS_DIR // n) x fs) = stat RELEASE_DIR fs.
Proof.
  exact (stat_store_frame Here (lit "docs") (lit "target") (Here // lit "release")
           (Here // n) x fs (fun E => docs_not_target (eq_sym E))).
Qed.

Lemma stat_release_store_docs x fs :
  stat RELEASE_DIR (store DOCS_DIR x fs) = stat RELEASE_DIR fs.
Proof.
  exact (stat_store_frame Here (lit "docs") (lit "target") (Here // lit "release")
           Here x fs (fun E => docs_not_target (eq_sym E))).
Qed.

(** One move of the loop, read on the two directories. *)
Lemma relocate_one n ses des fs :
  stat RELEASE_DIR fs = inr (Dir ses) ->
  stat DOCS_DIR fs = inr (Dir des) ->
  Path_rename (RELEASE_DIR // n) (DOCS_DIR // n) fs =
  match dir_lookup n ses with
  | None => (inl FileNotFoundError, fs)
  | Some x =>
      match rename_conflict x (dir_lookup n des) with
      | Some e => (inl e, fs)
      | None => (inr tt, store (DOCS_DIR // n) x (unlink (RELEASE_DIR // n) fs))
      end
  end.
Proof.
  intros Es Ed. unfold Path_rename, os_rename, bind, get.
  change (stat (RELEASE_DIR // n) fs) with
    (match stat RELEASE_DIR fs with
     | inl e => inl e
     | inr (File _) => inl NotADirectoryError
     | inr (Dir es) =>
         match dir_lookup n es with
         | Some x => inr x
         | None => inl FileNotFoundError
         end
     end).
  rewrite Es, Ed.
  destruct (dir_lookup n ses) as [x|]; [|reflexivity].
  change (path_eqb (RELEASE_DIR // n) (DOCS_DIR // n)) with false.
  change (inside (RELEASE_DIR // n) (DOCS_DIR // n)) with false.
  cbv iota.
  destruct (rename_conflict x (dir_lookup n des)); reflexivity.
Qed.

(** The two directories after a move. *)
Lemma relocate_one_dirs n x ses des fs :
  stat RELEASE_DIR fs = inr (Dir ses) ->
  stat DOCS_DIR fs = inr (Dir des) ->
  let fs' := store (DOCS_DIR // n) x (unlink (RELEASE_DIR // n) fs) in
  stat RELEASE_DIR fs' = inr (Dir (dir_remove n ses)) /\
  stat DOCS_DIR fs' = inr (Dir (dir_put n x des)).
Proof.
  intros Es Ed fs'. subst fs'. unfold unlink. rewrite Es.
  set (fs1 := store RELEASE_DIR (Dir (dir_remove n ses)) fs).
  assert (Ed1 : stat DOCS_DIR fs1 = inr (Dir des)).
  { unfold fs1. now rewrite stat_docs_store_release. }
  split.
  - rewrite stat_release_store_docs_child. unfold fs1.
    exact (stat_store_same RELEASE_DIR _ _ fs Es).
  - now destruct (stat_store_child DOCS_DIR n x des fs1 Ed1).
Qed.

(** The loop over two lists in a row. *)
Lemma for_files_app (l1 l2 : list path) acc fs :
  for_files (l1 ++ l2) acc fs =
  match for_files l1 acc fs with
  | (inl e, fs') => (inl e, fs')
  | (inr acc', fs') => for_files l2 acc' fs'
  end.
Proof.
  revert acc fs. induction l1 as [|f l1 IH]; intros acc fs; [reflexivity|].
  cbn [app for_files]. unfold bind.
  destruct (Path_rename f (DOCS_DIR // name f) fs) as [[e|[]] fs1]; [reflexivity|].
  apply IH.
Qed.

(** A loop that ends without an exception: the text it returns, and where
    each name is found afterwards. *)
Lemma for_files_ok ns : forall acc fs ses des acc' fs',
  stat RELEASE_DIR fs = inr (Dir ses) ->
  stat DOCS_DIR fs = inr (Dir des) ->
  for_files (map (Child RELEASE_DIR) ns) acc fs = (inr acc', fs') ->
  acc' = acc ++ concat (map entry_line ns) /\
  NoDup ns /\
  exists ses' des',
    stat RELEASE_DIR fs' = inr (Dir ses') /\
    stat DOCS_DIR fs' = inr (Dir des') /\
    (forall m, In m ns ->
       dir_lookup m ses' = None /\ dir_lookup m ses <> None /\
       dir_lookup m des' = dir_lookup m ses) /\
    (forall m, ~ In m ns ->
       dir_lookup m ses' = dir_lookup m ses /\
       dir_lookup m des' = dir_lookup m des).
Proof.
  induction ns as [|n ns IH]; intros acc fs ses des acc' fs' Es Ed.
  - simpl. intros [= <- <-]. rewrite app_nil_r.
    split; [reflexivity|]. split; [constructor|].
    exists ses, des. repeat split; auto; contradiction.
  - cbn [map for_files name]. unfold bind.
    rewrite (relocate_one n ses des fs Es Ed).
    destruct (dir_lookup n ses) as [x|] eqn:El; [|discriminate].
    destruct (rename_conflict x (dir_lookup n des)); [discriminate|].
    destruct (relocate_one_dirs n x ses des fs Es Ed) as [Es1 Ed1].
    intros Hrest.
    destruct (IH _ _ _ _ _ _ Es1 Ed1 Hrest)
      as (-> & Hnd & ses' & des' & Es' & Ed' & Hin & Hout).
    assert (Hn : ~ In n ns).
    { intros Hn. destruct (Hin n Hn) as (_ & H & _).
      apply H. apply dir_lookup_remove_eq. }
    split; [cbn [map concat]; now rewrite <- app_assoc|].
    split; [now constructor|].
    exists ses', des'. split; [exact Es'|]. split; [exact Ed'|]. split.
    + intros m [<-|Hm].
      * destruct (Hout n Hn) as [H1 H2].
        rewrite H1, H2, dir_lookup_remove_eq, dir_lookup_put_eq, El.
        repeat split; congruence.
      * assert (Hnm : n <> m) by congruence.
        destruct (Hin m Hm) as (H1 & H2 & H3).
        rewrite dir_lookup_remove_ne in H2, H3 by assumption. auto.
    + intros m Hm. simpl in Hm.
      assert (Hnm : n <> m) by tauto.
      destruct (Hout m) as [H1 H2]; [tauto|].
      rewrite H1, H2, dir_lookup_remove_ne, dir_lookup_put_ne by assumption.
      auto.
Qed.

End Loop.

(** ** The script, step by step *)

Section Script.

Implicit Types (n m : str) (x : node) (fs : node) (ses des : list dirent)
  (ns : list str) (doc : str).

Lemma dir_put_put n x y es : dir_put n x (dir_put n y es) = dir_put n x es.
Proof.
  induction es as [|[k z] es IH]; simpl.
  - now destruct (str_eq_dec n n).
  - destruct (str_eq_dec n k) as [->|Hk]; simpl.
    + now destruct (str_eq_dec k k).
    + destruct (str_eq_dec n k); [contradiction|]. now rewrite IH.
Qed.

(** The ensure-destination step, when it succeeds. *)
Lemma ensure_destination_ok fs fs1 :
  Path_mkdir DOCS_DIR true true fs = (inr tt, fs1) ->
  stat DOCS_DIR fs1 = inr (Dir (entries_of (stat DOCS_DIR fs))) /\
  stat RELEASE_DIR fs1 = stat RELEASE_DIR fs /\
  ((exists des, stat DOCS_DIR fs = inr (Dir des) /\ fs1 = fs) \/
   (stat DOCS_DIR fs = inl FileNotFoundError /\ fs1 = store DOCS_DIR (Dir []) fs)).
Proof.
  rewrite ensure_destination_cases.
  destruct (stat DOCS_DIR fs) as [e|[d|des]] eqn:Ed.
  - destruct e; try discriminate. intros [= <-].
    split; [|split; [apply stat_release_store_docs|right; auto]].
    revert Ed. unfold DOCS_DIR. cbn [stat store].
    destruct fs as [d|top]; [discriminate|]. intros _. cbn [stat].
    now rewrite dir_lookup_put_eq.
  - discriminate.
  - intros [= <-]. simpl. split; [exact Ed|]. split; [reflexivity|]. left. eauto.
Qed.

(** The write step, read on the destination directory. *)
Lemma write_index_cases doc des fs :
  stat DOCS_DIR fs = inr (Dir des) ->
  write_text INDEX_HTML doc fs =
  match dir_lookup (lit "index.html") des with
  | Some (Dir _) => (inl IsADirectoryError, fs)
  | _ =>
      match encode_utf8 doc with
      | None => (inl UnicodeEncodeError, store INDEX_HTML (File []) fs)
      | Some bs =>
          (inr tt, store INDEX_HTML (File bs) (store INDEX_HTML (File []) fs))
      end
  end.
Proof.
  intros Ed. unfold write_text, INDEX_HTML, open_w, bind, get. rewrite Ed.
  destruct (dir_lookup (lit "index.html") des) as [[d|ys]|];
    try reflexivity; unfold modify; destruct (encode_utf8 doc); reflexivity.
Qed.

(** The two directories after the index is stored. *)
Lemma store_index_dirs x des fs :
  stat DOCS_DIR fs = inr (Dir des) ->
  stat DOCS_DIR (store INDEX_HTML x fs)
    = inr (Dir (dir_put (lit "index.html") x des)) /\
  stat RELEASE_DIR (store INDEX_HTML x fs) = stat RELEASE_DIR fs.
Proof.
  intros Ed. split.
  - now destruct (stat_store_child DOCS_DIR (lit "index.html") x des fs Ed).
  - apply stat_release_store_docs_child.
Qed.

(** The script up to the end of the loop, when no call raises. *)
Lemma relocate_ok fs doc fs2 :
  relocate fs = (inr doc, fs2) ->
  exists ses des2,
    stat RELEASE_DIR fs = inr (Dir ses) /\
    NoDup (dir_names ses) /\
    doc = index_head
            ++ concat (map entry_line (dir_names ses)) /\
    stat RELEASE_DIR fs2 = inr (Dir []) /\
    stat DOCS_DIR fs2 = inr (Dir des2) /\
    (forall m, In m (dir_names ses) -> dir_lookup m des2 = dir_lookup m ses) /\
    (forall m, ~ In m (dir_names ses) ->
       dir_lookup m des2 = dir_lookup m (entries_of (stat DOCS_DIR fs))).
Proof.
  unfold relocate, bind at 1.
  destruct (Path_mkdir DOCS_DIR true true fs) as [[e|[]] fs1] eqn:Em;
    [discriminate|].
  destruct (ensure_destination_ok fs fs1 Em) as (Ed1 & Es1 & _).
  unfold iterdir, os_listdir, bind, get, ret. rewrite Es1.
  destruct (stat RELEASE_DIR fs) as [e|[d|ses]] eqn:Es; try discriminate.
  unfold raise, ret. intros Hloop.
  destruct (for_files_ok _ _ _ _ _ _ _ Es1 Ed1 Hloop)
    as (-> & Hnd & ses' & des' & Es' & Ed' & Hin & Hout).
  exists ses, des'. repeat split; auto.
  - rewrite Es'. do 2 f_equal. apply dir_lookup_nothing. intros m.
    destruct (in_dec str_eq_dec m (dir_names ses)) as [Hm|Hm].
    + now destruct (Hin m Hm).
    + destruct (Hout m Hm) as [-> _]. now apply dir_lookup_None.
  - intros m Hm. now destruct (Hin m Hm) as (_ & _ & H).
  - intros m Hm. now destruct (Hout m Hm).
Qed.

(** The whole script, when no call raises. *)
Lemma make_docs_ok fs fs' :
  make_docs fs = (inr tt, fs') ->
  exists ses des2 fs2 bs,
    stat RELEASE_DIR fs = inr (Dir ses) /\
    relocate fs = (inr (index_head ++ concat
                    (map entry_line (dir_names ses))), fs2) /\
    stat DOCS_DIR fs2 = inr (Dir des2) /\
    encode_utf8 (document (dir_names ses)) = Some bs /\
    stat DOCS_DIR fs' = inr (Dir (dir_put (lit "index.html") (File bs) des2)) /\
    stat RELEASE_DIR fs' = inr (Dir []).
Proof.
  unfold make_docs, bind at 1.
  destruct (relocate fs) as [[e|doc] fs2] eqn:Er; [discriminate|].
  destruct (relocate_ok fs doc fs2 Er)
    as (ses & des2 & Es & Hnd & -> & Es2 & Ed2 & Hin & Hout).
  rewrite (write_index_cases _ des2 fs2 Ed2).
  unfold document. rewrite <- app_assoc.
  set (d := index_head ++ _ ++ index_foot).
  intros Hw. exists ses, des2, fs2.
  assert (Hbs : exists bs, encode_utf8 d = Some bs /\
            fs' = store INDEX_HTML (File bs) (store INDEX_HTML (File []) fs2)).
  { destruct (dir_lookup (lit "index.html") des2) as [[c|ys]|];
      try discriminate; destruct (encode_utf8 d) as [bs|];
      try discriminate; injection Hw as <-; eauto. }
  destruct Hbs as (bs & Ebs & ->). exists bs.
  destruct (store_index_dirs (File []) des2 fs2 Ed2) as [Ed3 Es3].
  destruct (store_index_dirs (File bs) _ _ Ed3) as [Ed4 Es4].
  repeat split; auto.
  - rewrite Ed4. now rewrite dir_put_put.
  - now rewrite Es4, Es3.
Qed.

End Script.

(** ** The escaping step *)

Section Escaping.

Lemma escape_app (s t : str) :
  escape (s ++ t) true = escape s true ++ escape t true.
Proof. rewrite !escape_refines. apply flat_map_app. Qed.

Lemma escape_other (c : N) :
  c <> 38 -> c <> 60 -> c <> 62 -> c <> 34 -> c <> 39 -> escape [c] true = [c].
Proof.
  intros. rewrite escape_refines. unfold escape_spec. cbn [flat_map].
  rewrite app_nil_r.
  destruct (entity_cases c)
    as [[-> _]|[[-> _]|[[-> _]|[[-> _]|[[-> _]|(_&_&_&_&_&H')]]]]];
    congruence.
Qed.

(** C4: for every entry name the escaping step replaces each of the
    characters ampersand, less-than, greater-than, double quote and apostrophe
    by its HTML entity, and nothing else, before the name is put in the link;
    an entry named a&<b>.txt gives a&amp;&lt;b&gt;.txt as address and as text
    of its link. *)
Theorem escape_replaces_special_characters :
  (forall s t, escape (s ++ t) true = escape s true ++ escape t true) /\
  escape [38] true = lit "&amp;" /\
  escape [60] true = lit "&lt;" /\
  escape [62] true = lit "&gt;" /\
  escape [QUOT] true = lit "&quot;" /\
  escape [39] true = lit "&#x27;" /\
  (forall c, c <> 38 -> c <> 60 -> c <> 62 -> c <> QUOT -> c <> 39 ->
     escape [c] true = [c]) /\
  (forall name, escape name true = flat_map entity name) /\
  (forall file rest acc fs,
     for_files (file :: rest) acc fs =
     (Path_rename file (DOCS_DIR // name file) ;;;
      for_files rest (acc ++ list_item (flat_map entity (name file)))) fs) /\
  escape (lit "a&<b>.txt") true = lit "a&amp;&lt;b&gt;.txt" /\
  entry_line (lit "a&<b>.txt") =
    lit "<li><a href=" ++ [QUOT] ++ lit "a&amp;&lt;b&gt;.txt" ++ [QUOT]
      ++ lit ">" ++ lit "a&amp;&lt;b&gt;.txt" ++ lit "</a></li>" ++ [NL].
Proof.
  split; [exact escape_app|].
  do 5 (split; [reflexivity|]).
  split; [exact escape_other|].
  split; [exact escape_refines|].
  split; [|split; reflexivity].
  intros file rest acc fs. cbn [for_files].
  now rewrite escape_refines.
Qed.

End Escaping.

(** ** The ensure-destination step *)

Section EnsureDestination.

(** C7: the ensure-destination step is idempotent.  Making a directory, with
    its missing ancestors, that is already there raises nothing and leaves
    the whole tree as it is; after a first call a second one changes
    nothing, so that two calls in a row are one call.  The destination of
    the script is [p = DOCS_DIR]. *)
Theorem ensure_destination_idempotent (p : path) (fs : node) :
  (forall es, stat p fs = inr (Dir es) ->
     Path_mkdir p true true fs = (inr tt, fs)) /\
  (forall fs1, Path_mkdir p true true fs = (inr tt, fs1) ->
     Path_mkdir p true true fs1 = (inr tt, fs1)) /\
  (Path_mkdir p true true ;;; Path_mkdir p true true) fs
    = Path_mkdir p true true fs.
Proof.
  assert (Hagain : forall fs1, Path_mkdir p true true fs = (inr tt, fs1) ->
            Path_mkdir p true true fs1 = (inr tt, fs1)).
  { intros fs1 H. destruct (mkdir_parents_makes p fs fs1 H) as [es Hes].
    exact (mkdir_parents_present p es fs1 Hes). }
  split; [intros es; apply mkdir_parents_present|].
  split; [exact Hagain|].
  unfold bind. destruct (Path_mkdir p true true fs) as [[e|[]] fs1] eqn:E.
  - reflexivity.
  - now apply Hagain.
Qed.

Lemma ensure_destination_idempotent_witness :
  stat DOCS_DIR Samples.second_run
    = inr (Dir [(lit "old.bin", Samples.bin "OLD");
                (lit "index.html", Samples.bin "<h1>")]) /\
  Path_mkdir DOCS_DIR true true Samples.second_run = (inr tt, Samples.second_run) /\
  Path_mkdir DOCS_DIR true true (store DOCS_DIR (Dir []) Samples.unbuilt)
    = (inr tt, store DOCS_DIR (Dir []) Samples.unbuilt).
Proof.
  split; [reflexivity|]. split.
  - apply (proj1 (ensure_destination_idempotent DOCS_DIR Samples.second_run)
             [(lit "old.bin", Samples.bin "OLD");
              (lit "index.html", Samples.bin "<h1>")]).
    reflexivity.
  - apply (proj1 (proj2 (ensure_destination_idempotent DOCS_DIR Samples.unbuilt))).
    reflexivity.
Defined.

(** The missing ancestors are made, outermost first. *)
Lemma mkdir_makes_ancestors :
  Path_mkdir (Here // lit "a" // lit "b" // lit "c") true true (Dir [])
  = (inr tt, Dir [(lit "a", Dir [(lit "b", Dir [(lit "c", Dir [])])])]).
Proof. reflexivity. Qed.

(** The index file is what it was after the ensure-destination step. *)
Lemma ensure_destination_keeps_index (fs fs1 : node) :
  Path_mkdir DOCS_DIR true true fs = (inr tt, fs1) ->
  stat INDEX_HTML fs1 = stat INDEX_HTML fs.
Proof.
  intros H. destruct (ensure_destination_ok fs fs1 H) as (Ed1 & _ & Hc).
  destruct Hc as [(des & Ed & ->)|(Ed & ->)]; [reflexivity|].
  unfold INDEX_HTML. cbn [stat] in *. fold DOCS_DIR in *.
  change (stat (Here // lit "docs") fs) with (stat DOCS_DIR fs) in *.
  now rewrite Ed1, Ed.
Qed.

(** C1, as the script has it: when the source directory does not exist the
    run fails, but only after the ensure-destination step.  With [docs]
    absent the run creates it, empty, and then raises FileNotFoundError; with
    [docs] a directory it raises FileNotFoundError and changes nothing; with
    [docs] a regular file the ensure-destination step itself raises
    FileExistsError.  In no case is an entry moved or index.html written. *)
Theorem missing_source_fails_after_ensure (fs : node) :
  stat RELEASE_DIR fs = inl FileNotFoundError ->
  match stat DOCS_DIR fs with
  | inr (Dir _) => make_docs fs = (inl FileNotFoundError, fs)
  | inl FileNotFoundError =>
      make_docs fs = (inl FileNotFoundError, store DOCS_DIR (Dir []) fs) /\
      stat DOCS_DIR (store DOCS_DIR (Dir []) fs) = inr (Dir [])
  | inr (File _) => make_docs fs = (inl FileExistsError, fs)
  | inl e => make_docs fs = (inl e, fs)
  end /\
  stat INDEX_HTML (snd (make_docs fs)) = stat INDEX_HTML fs /\
  stat RELEASE_DIR (snd (make_docs fs)) = inl FileNotFoundError.
Proof.
  intros Es.
  assert (Hrun : make_docs fs =
            match Path_mkdir DOCS_DIR true true fs with
            | (inl e, fs1) => (inl e, fs1)
            | (inr _, fs1) => (inl FileNotFoundError, fs1)
            end).
  { unfold make_docs, relocate, bind.
    destruct (Path_mkdir DOCS_DIR true true fs) as [[e|[]] fs1] eqn:Em;
      [reflexivity|].
    destruct (ensure_destination_ok fs fs1 Em) as (_ & Es1 & _).
    unfold iterdir, os_listdir, bind, get. now rewrite Es1, Es. }
  pose proof (ensure_destination_cases fs) as Em.
  destruct (stat DOCS_DIR fs) as [e'|[d|des]] eqn:Ed.
  - destruct e'; rewrite Em in Hrun; rewrite Hrun; auto.
    pose proof (ensure_destination_keeps_index fs _ Em) as Hidx.
    destruct (ensure_destination_ok fs _ Em) as (Ed1 & Es1 & _).
    rewrite Ed in Ed1. cbn [snd]. rewrite Es1. auto.
  - rewrite Em in Hrun. rewrite Hrun. auto.
  - rewrite Em in Hrun. rewrite Hrun. auto.
Qed.

Lemma missing_source_fails_after_ensure_witness :
  make_docs Samples.unbuilt
    = (inl FileNotFoundError, store DOCS_DIR (Dir []) Samples.unbuilt) /\
  stat DOCS_DIR (store DOCS_DIR (Dir []) Samples.unbuilt) = inr (Dir []).
Proof.
  exact (proj1 (missing_source_fails_after_ensure Samples.unbuilt eq_refl)).
Defined.

(** C1, as the specification states it, fails on a tree with neither [target] nor
    [docs]: the run raises FileNotFoundError and has created [docs]. *)
Lemma missing_source_creates_docs :
  stat RELEASE_DIR Samples.unbuilt = inl FileNotFoundError /\
  fst (make_docs Samples.unbuilt) = inl FileNotFoundError /\
  stat DOCS_DIR Samples.unbuilt = inl FileNotFoundError /\
  stat DOCS_DIR (snd (make_docs Samples.unbuilt)) = inr (Dir []) /\
  snd (make_docs Samples.unbuilt) <> Samples.unbuilt.
Proof. repeat split. discriminate. Qed.

End EnsureDestination.

(** ** The index document *)

Section IndexDocument.

Implicit Types (n m : str) (ns : list str) (s t : str).

Lemma stat_child (q : path) n (es : list dirent) (fs : node) :
  stat q fs = inr (Dir es) ->
  stat (q // n) fs =
  match dir_lookup n es with Some x => inr x | None => inl FileNotFoundError end.
Proof. intros E. cbn [stat]. now rewrite E. Qed.

(** An escaped text holds none of the four characters that delimit markup
    and attribute values. *)
Lemma escape_spec_clean s (c : N) :
  In c (escape_spec s) -> c <> 60 /\ c <> 62 /\ c <> 34 /\ c <> 39.
Proof.
  unfold escape_spec. induction s as [|a s IH]; simpl; [tauto|].
  rewrite in_app_iff. intros [H|H]; [|exact (IH H)].
  revert H.
  destruct (entity_cases a)
    as [[-> E]|[[-> E]|[[-> E]|[[-> E]|[[-> E]|(?&?&?&?&?&E)]]]]];
    rewrite E; simpl; intros Hc;
    repeat (destruct Hc as [Hc|Hc]; [subst c; repeat split; congruence|]);
    contradiction.
Qed.

Lemma list_item_inj s t :
  ~ In QUOT s -> ~ In QUOT t -> list_item s = list_item t -> s = t.
Proof.
  intros Hs Ht E. unfold list_item in E.
  apply app_inv_head in E. cbn [app] in E. injection E as E.
  now destruct (app_sep_inj QUOT s t _ _ Hs Ht E).
Qed.

Lemma entry_line_inj n m : entry_line n = entry_line m -> n = m.
Proof.
  unfold entry_line. rewrite !escape_refines. intros E.
  apply escape_spec_inj. revert E.
  apply list_item_inj; apply escape_spec_no_quot.
Qed.


(** *** Counting the list items in the text *)






End IndexDocument.

(** ** The index file of a run that succeeds *)

Section IndexFile.

Implicit Types (n m : str) (ns : list str) (fs : node).

Lemma utf8_list_item (link : str) :
  utf8 (list_item link) =
  blit "<li><a href=" ++ [x22] ++ utf8 link ++ [x22] ++ blit ">" ++ utf8 link
    ++ blit "</a></li>" ++ [x0a].
Proof. unfold list_item. rewrite !utf8_app. reflexivity. Qed.

Lemma encodable_lines ns :
  forallb encodable (concat (map entry_line ns)) = true ->
  Forall (fun n => forallb encodable (escape n true) = true) ns.
Proof.
  induction ns as [|n ns IH]; [constructor|].
  cbn [map concat]. rewrite forallb_app. intros [Hn Hns]%andb_prop.
  constructor; [|now apply IH].
  unfold entry_line, list_item in Hn.
  rewrite !forallb_app in Hn.
  now repeat (apply andb_prop in Hn as [? Hn]).
Qed.

(** What a run that succeeds has listed and written. *)
Lemma make_docs_index fs fs' :
  make_docs fs = (inr tt, fs') ->
  exists ses,
    stat RELEASE_DIR fs = inr (Dir ses) /\
    NoDup (dir_names ses) /\
    forallb encodable (document (dir_names ses)) = true /\
    stat INDEX_HTML fs' = inr (File (utf8 (document (dir_names ses)))).
Proof.
  intros H. destruct (make_docs_ok fs fs' H)
    as (ses & des2 & fs2 & bs & Es & Hr & Ed2 & Ebs & Ed' & Es').
  destruct (relocate_ok fs _ fs2 Hr) as (ses0 & _ & Es0 & Hnd & _).
  rewrite Es in Es0. injection Es0 as <-.
  apply encode_utf8_Some in Ebs as [Henc ->].
  exists ses. repeat split; auto.
  unfold INDEX_HTML. rewrite (stat_child _ _ _ _ Ed').
  now rewrite dir_lookup_put_eq.
Qed.



(** C5: the index.html that a run emits is, byte for byte, the heading line,
    the line that opens the list, one line for each name of the listing in
    the order of the listing, and the line that closes the list.  The text
    is written in UTF-8 to index.html in the destination directory,
    whatever that directory held under this name before, and each line has
    the same escaped name as address and as text of the link. *)
Theorem index_html_bytes (fs fs' : node) :
  make_docs fs = (inr tt, fs') ->
  exists ses,
    os_listdir RELEASE_DIR fs = (inr (dir_names ses), fs) /\
    stat (DOCS_DIR // lit "index.html") fs' =
      inr (File
        (blit "<h1>Binary builds</h1>" ++ [x0a] ++ blit "<ul>" ++ [x0a]
         ++ concat (map (fun n =>
                blit "<li><a href=" ++ [x22] ++ utf8 (escape n true) ++ [x22]
                  ++ blit ">" ++ utf8 (escape n true) ++ blit "</a></li>"
                  ++ [x0a]) (dir_names ses))
         ++ blit "</ul>" ++ [x0a])) /\
    Forall (fun n => encode_utf8 (escape n true) = Some (utf8 (escape n true)))
      (dir_names ses).
Proof.
  intros H. destruct (make_docs_index fs fs' H) as (ses & Es & Hnd & Henc & Hidx).
  exists ses.
  split; [unfold os_listdir, bind, get; now rewrite Es|].
  split.
  - fold INDEX_HTML. rewrite Hidx. do 2 f_equal.
    unfold document. rewrite !utf8_app, utf8_concat, map_map.
    change (utf8 index_head)
      with (blit "<h1>Binary builds</h1>" ++ [x0a] ++ blit "<ul>" ++ [x0a]).
    change (utf8 index_foot) with (blit "</ul>" ++ [x0a]).
    rewrite <- !app_assoc. do 6 f_equal.
    apply map_ext. intros n. apply utf8_list_item.
  - unfold document in Henc. rewrite !forallb_app in Henc.
    apply andb_prop in Henc as [_ Henc]. apply andb_prop in Henc as [Henc _].
    apply encodable_lines in Henc.
    eapply Forall_impl; [|exact Henc].
    intros n Hn. apply encode_utf8_Some. auto.
Qed.

Lemma index_html_bytes_witness :
  stat (DOCS_DIR // lit "index.html") Samples.second_run
    = inr (Samples.bin "<h1>") /\
  stat (DOCS_DIR // lit "index.html") (snd (make_docs Samples.second_run)) =
    inr (File
      (blit "<h1>Binary builds</h1>" ++ [x0a] ++ blit "<ul>" ++ [x0a]
       ++ blit "<li><a href=" ++ [x22] ++ blit "new.bin" ++ [x22] ++ blit ">"
       ++ blit "new.bin" ++ blit "</a></li>" ++ [x0a]
       ++ blit "</ul>" ++ [x0a])).
Proof.
  split; [reflexivity|].
  destruct (index_html_bytes Samples.second_run (snd (make_docs Samples.second_run)))
    as (ses & Hl & Hb & _).
  - vm_compute. reflexivity.
  - injection Hl as Hl. rewrite Hb, <- Hl. vm_compute. reflexivity.
Defined.

End IndexFile.

(** ** The two directories after a run that succeeds *)

Section Relocation.

Implicit Types (n m : str) (fs : node) (ses des : list dirent).

(** C2, as the script has it: after a run that succeeds the source
    directory is empty, and the destination directory holds, by name, the
    entries the source directory had, index.html, and whatever it held
    before the run, which the run does not clear.  Each entry not named
    index.html is at the destination the very node it was at the source,
    under its name, and no longer at the source; the names that did not
    come from the source keep what they had. *)
Theorem successful_run_relocates (fs fs' : node) :
  make_docs fs = (inr tt, fs') ->
  exists ses des',
    stat RELEASE_DIR fs = inr (Dir ses) /\
    stat DOCS_DIR fs' = inr (Dir des') /\
    stat RELEASE_DIR fs' = inr (Dir []) /\
    (forall m, In m (dir_names des') <->
       In m (dir_names ses) \/ m = lit "index.html" \/
       In m (dir_names (entries_of (stat DOCS_DIR fs)))) /\
    (forall m x, dir_lookup m ses = Some x -> m <> lit "index.html" ->
       stat (DOCS_DIR // m) fs' = inr x) /\
    (forall m, In m (dir_names ses) ->
       stat (RELEASE_DIR // m) fs' = inl FileNotFoundError) /\
    (forall m, ~ In m (dir_names ses) -> m <> lit "index.html" ->
       dir_lookup m des' = dir_lookup m (entries_of (stat DOCS_DIR fs))).
Proof.
  intros H. destruct (make_docs_ok fs fs' H)
    as (ses & des2 & fs2 & bs & Es & Hr & Ed2 & Ebs & Ed' & Es').
  destruct (relocate_ok fs _ fs2 Hr)
    as (ses0 & des0 & Es0 & Hnd & _ & _ & Ed0 & Hin & Hout).
  rewrite Es in Es0. injection Es0 as <-.
  rewrite Ed2 in Ed0. injection Ed0 as <-.
  exists ses, (dir_put (lit "index.html") (File bs) des2).
  split; [exact Es|]. split; [exact Ed'|]. split; [exact Es'|].
  split; [|split; [|split]].
  - intros m. rewrite dir_names_put.
    destruct (in_dec str_eq_dec m (dir_names ses)) as [Hm|Hm].
    + split; [tauto|]. intros _. right.
      apply dir_lookup_Some. rewrite (Hin m Hm). now apply dir_lookup_Some.
    + rewrite (dir_lookup_Some m des2), (Hout m Hm), <- dir_lookup_Some. tauto.
  - intros m x Hx Hm. rewrite (stat_child _ _ _ _ Ed').
    rewrite dir_lookup_put_ne by congruence.
    rewrite Hin, Hx; [reflexivity|]. apply dir_lookup_Some. eauto.
  - intros m _. now rewrite (stat_child _ _ _ _ Es').
  - intros m Hm Hi. rewrite dir_lookup_put_ne by congruence. now apply Hout.
Qed.

Lemma successful_run_relocates_witness :
  exists ses des',
    stat RELEASE_DIR Samples.second_run = inr (Dir ses) /\
    stat DOCS_DIR (snd (make_docs Samples.second_run)) = inr (Dir des') /\
    stat RELEASE_DIR (snd (make_docs Samples.second_run)) = inr (Dir []) /\
    (forall m, In m (dir_names des') <->
       In m (dir_names ses) \/ m = lit "index.html" \/
       In m (dir_names (entries_of (stat DOCS_DIR Samples.second_run)))) /\
    (forall m x, dir_lookup m ses = Some x -> m <> lit "index.html" ->
       stat (DOCS_DIR // m) (snd (make_docs Samples.second_run)) = inr x) /\
    (forall m, In m (dir_names ses) ->
       stat (RELEASE_DIR // m) (snd (make_docs Samples.second_run))
         = inl FileNotFoundError) /\
    (forall m, ~ In m (dir_names ses) -> m <> lit "index.html" ->
       dir_lookup m des'
         = dir_lookup m (entries_of (stat DOCS_DIR Samples.second_run))).
Proof.
  apply (successful_run_relocates Samples.second_run
           (snd (make_docs Samples.second_run))).
  vm_compute. reflexivity.
Defined.

(** C2, as the specification states it, fails on a second run: the run succeeds, the
    source directory held new.bin only, and the destination directory holds
    old.bin besides new.bin and index.html. *)
Lemma stale_entries_survive :
  fst (make_docs Samples.second_run) = inr tt /\
  dir_names (entries_of (stat RELEASE_DIR Samples.second_run)) = [lit "new.bin"] /\
  dir_names (entries_of (stat DOCS_DIR (snd (make_docs Samples.second_run))))
    = [lit "old.bin"; lit "index.html"; lit "new.bin"] /\
  ~ In (lit "old.bin") [lit "new.bin"; lit "index.html"].
Proof.
  repeat split. intros [H|[H|[]]]; discriminate H.
Qed.

(** The text of an index without items. *)
Lemma encode_empty_document :
  encode_utf8 (index_head ++ index_foot) =
  Some (blit "<h1>Binary builds</h1>" ++ [x0a] ++ blit "<ul>" ++ [x0a]
          ++ blit "</ul>" ++ [x0a]).
Proof. reflexivity. Qed.

(** C6, as the script has it: given an empty source directory, and a
    destination that is absent or is a directory in which index.html is not
    a directory, the run succeeds and the destination directory holds what
    it held before with index.html put in it: index.html only when the
    destination was absent or empty.  The file is the heading and an empty
    list. *)
Theorem empty_source_run (fs : node) :
  stat RELEASE_DIR fs = inr (Dir []) ->
  (stat DOCS_DIR fs = inl FileNotFoundError \/
   exists des, stat DOCS_DIR fs = inr (Dir des)) ->
  (forall ys, dir_lookup (lit "index.html") (entries_of (stat DOCS_DIR fs))
                <> Some (Dir ys)) ->
  let index :=
    File (blit "<h1>Binary builds</h1>" ++ [x0a] ++ blit "<ul>" ++ [x0a]
            ++ blit "</ul>" ++ [x0a]) in
  exists fs',
    make_docs fs = (inr tt, fs') /\
    stat DOCS_DIR fs' =
      inr (Dir (dir_put (lit "index.html") index (entries_of (stat DOCS_DIR fs)))) /\
    (entries_of (stat DOCS_DIR fs) = [] ->
     stat DOCS_DIR fs' = inr (Dir [(lit "index.html", index)])) /\
    stat RELEASE_DIR fs' = inr (Dir []).
Proof.
  intros Es Hd Hidx index.
  assert (Hm : exists fs1, Path_mkdir DOCS_DIR true true fs = (inr tt, fs1)).
  { rewrite ensure_destination_cases.
    destruct Hd as [->|[des ->]]; eauto. }
  destruct Hm as [fs1 Hm].
  destruct (ensure_destination_ok fs fs1 Hm) as (Ed1 & Es1 & _).
  set (des := entries_of (stat DOCS_DIR fs)) in *.
  destruct (store_index_dirs (File []) des fs1 Ed1) as [Ed2 Es2].
  destruct (store_index_dirs index _ _ Ed2) as [Ed3 Es3].
  rewrite dir_put_put in Ed3.
  exists (store INDEX_HTML index (store INDEX_HTML (File []) fs1)).
  split; [|split; [exact Ed3|split]].
  - unfold make_docs, relocate, bind. rewrite Hm.
    unfold iterdir, os_listdir, bind, get, ret. rewrite Es1, Es.
    cbn [dir_names map for_files]. unfold ret.
    rewrite (write_index_cases _ des fs1 Ed1), encode_empty_document.
    destruct (dir_lookup (lit "index.html") des) as [[d|ys]|] eqn:El;
      try reflexivity.
    now destruct (Hidx ys).
  - intros E. rewrite Ed3, E. reflexivity.
  - now rewrite Es3, Es2, Es1.
Qed.

Lemma empty_source_run_witness :
  exists fs',
    make_docs Samples.empty_build = (inr tt, fs') /\
    stat DOCS_DIR fs' =
      inr (Dir (dir_put (lit "index.html")
                  (File (blit "<h1>Binary builds</h1>" ++ [x0a] ++ blit "<ul>"
                           ++ [x0a] ++ blit "</ul>" ++ [x0a]))
                  (entries_of (stat DOCS_DIR Samples.empty_build)))) /\
    (entries_of (stat DOCS_DIR Samples.empty_build) = [] ->
     stat DOCS_DIR fs' =
       inr (Dir [(lit "index.html",
                  File (blit "<h1>Binary builds</h1>" ++ [x0a] ++ blit "<ul>"
                          ++ [x0a] ++ blit "</ul>" ++ [x0a]))])) /\
    stat RELEASE_DIR fs' = inr (Dir []).
Proof.
  apply (empty_source_run Samples.empty_build).
  - reflexivity.
  - left. reflexivity.
  - intros ys. simpl. discriminate.
Defined.

(** C6, as the specification states it, fails on a second run with nothing new: the
    source directory is empty, the run succeeds, and the destination
    directory holds old.bin besides index.html. *)
Lemma empty_source_keeps_stale_entries :
  stat RELEASE_DIR Samples.second_run_empty = inr (Dir []) /\
  fst (make_docs Samples.second_run_empty) = inr tt /\
  dir_names (entries_of (stat DOCS_DIR (snd (make_docs Samples.second_run_empty))))
    = [lit "old.bin"; lit "index.html"] /\
  dir_names (entries_of (stat DOCS_DIR (snd (make_docs Samples.second_run_empty))))
    <> [lit "index.html"].
Proof. repeat split. discriminate. Qed.

End Relocation.

(** ** Runs that raise *)

Section Failures.

Implicit Types (n m : str) (fs : node) (ses des : list dirent)
  (pre post : list str) (doc : str) (e : exn).

(** A call that raises leaves the tree as it is. *)
Lemma os_rename_raise (src dst : path) e fs fs' :
  os_rename src dst fs = (inl e, fs') -> fs' = fs.
Proof.
  unfold os_rename, bind, get, raise, ret, modify.
  destruct src as [|sd sn]; [now intros [= _ <-]|].
  destruct dst as [|dd dn]; [now intros [= _ <-]|].
  destruct (stat (sd // sn) fs) as [e1|x]; [now intros [= _ <-]|].
  destruct (stat dd fs) as [e1|[d|ds]]; try now intros [= _ <-].
  destruct (path_eqb (sd // sn) (dd // dn)); [discriminate|].
  destruct (inside (sd // sn) (dd // dn)); [now intros [= _ <-]|].
  destruct (rename_conflict x (dir_lookup dn ds)); [now intros [= _ <-]|].
  discriminate.
Qed.

Lemma iterdir_cases (p : path) fs :
  iterdir p fs =
  match stat p fs with
  | inl e => (inl e, fs)
  | inr (File _) => (inl NotADirectoryError, fs)
  | inr (Dir es) => (inr (map (Child p) (dir_names es)), fs)
  end.
Proof.
  unfold iterdir, os_listdir, bind, get, raise, ret.
  now destruct (stat p fs) as [e|[d|es]].
Qed.

(** A run in which the moves of [pre] succeed and the move of [n] raises
    stops there, inside the loop. *)
Lemma run_stops_at_failed_move fs fs1 pre n post doc fsk e fsk' :
  Path_mkdir DOCS_DIR true true fs = (inr tt, fs1) ->
  iterdir RELEASE_DIR fs1
    = (inr (map (Child RELEASE_DIR) (pre ++ n :: post)), fs1) ->
  for_files (map (Child RELEASE_DIR) pre) index_head fs1 = (inr doc, fsk) ->
  Path_rename (RELEASE_DIR // n) (DOCS_DIR // n) fsk = (inl e, fsk') ->
  relocate fs = (inl e, fsk) /\ fsk' = fsk /\
  exists ses ses' des',
    stat RELEASE_DIR fs = inr (Dir ses) /\
    stat RELEASE_DIR fsk = inr (Dir ses') /\
    stat DOCS_DIR fsk = inr (Dir des') /\
    (forall m, In m pre ->
       dir_lookup m ses' = None /\ dir_lookup m ses <> None /\
       dir_lookup m des' = dir_lookup m ses) /\
    (forall m, ~ In m pre ->
       dir_lookup m des' = dir_lookup m (entries_of (stat DOCS_DIR fs))).
Proof.
  intros Hm Hl Hpre Hn.
  pose proof (os_rename_raise _ _ _ _ _ Hn) as ->.
  destruct (ensure_destination_ok fs fs1 Hm) as (Ed1 & Es1 & _).
  split; [|split; [reflexivity|]].
  - unfold relocate, bind. rewrite Hm, Hl.
    rewrite map_app, for_files_app, Hpre.
    cbn [map for_files name]. unfold bind. now rewrite Hn.
  - rewrite iterdir_cases, Es1 in Hl.
    destruct (stat RELEASE_DIR fs) as [e1|[d|ses]] eqn:Es; try discriminate.
    destruct (for_files_ok _ _ _ _ _ _ _ Es1 Ed1 Hpre)
      as (_ & _ & ses' & des' & Es' & Ed' & Hin & Hout).
    exists ses, ses', des'. repeat split; auto; try apply (Hin m); auto.
    intros m Hmm. now destruct (Hout m Hmm).
Qed.

(** A run in which the write raises. *)
Lemma run_stops_at_failed_write fs doc fs2 e fs3 :
  relocate fs = (inr doc, fs2) ->
  write_text INDEX_HTML (doc ++ index_foot) fs2 = (inl e, fs3) ->
  make_docs fs = (inl e, fs3) /\
  exists ses des2,
    stat RELEASE_DIR fs = inr (Dir ses) /\
    stat DOCS_DIR fs2 = inr (Dir des2) /\
    (forall m, In m (dir_names ses) -> dir_lookup m des2 = dir_lookup m ses) /\
    stat RELEASE_DIR fs3 = inr (Dir []) /\
    (stat DOCS_DIR fs3 = inr (Dir des2) \/
     stat DOCS_DIR fs3 = inr (Dir (dir_put (lit "index.html") (File []) des2))).
Proof.
  intros Hr Hw. split; [unfold make_docs, bind; now rewrite Hr|].
  destruct (relocate_ok fs doc fs2 Hr)
    as (ses & des2 & Es & _ & _ & Es2 & Ed2 & Hin & _).
  exists ses, des2. do 3 (split; [assumption|]).
  rewrite (write_index_cases _ des2 fs2 Ed2) in Hw.
  destruct (store_index_dirs (File []) des2 fs2 Ed2) as [Ed3 Es3].
  destruct (dir_lookup (lit "index.html") des2) as [[d|ys]|];
    destruct (encode_utf8 (doc ++ index_foot)); try discriminate;
    apply (f_equal snd) in Hw; cbn [snd] in Hw; subst fs3;
    rewrite ?Es3; auto.
Qed.

(** C8: nothing in the script catches an exception.  The first call that
    raises (the creation of the directory, the listing, a move, the write)
    ends the run with that exception, hence with exit status 1 and the
    traceback of that exception, in the tree that the calls before it and
    the failing call left.  A failing creation, listing or move changes
    nothing, so that every entry moved before is still at the destination,
    as the node it was, and no longer at the source; nothing is moved
    back. *)
Theorem first_failure_ends_the_run (fs : node) :
  (forall e fs1, Path_mkdir DOCS_DIR true true fs = (inl e, fs1) ->
     make_docs fs = (inl e, fs1) /\ fs1 = fs) /\
  (forall fs1 e fs2, Path_mkdir DOCS_DIR true true fs = (inr tt, fs1) ->
     iterdir RELEASE_DIR fs1 = (inl e, fs2) ->
     make_docs fs = (inl e, fs1) /\ fs2 = fs1) /\
  (forall fs1 pre n post doc fsk e fsk',
     Path_mkdir DOCS_DIR true true fs = (inr tt, fs1) ->
     iterdir RELEASE_DIR fs1
       = (inr (map (Child RELEASE_DIR) (pre ++ n :: post)), fs1) ->
     for_files (map (Child RELEASE_DIR) pre) index_head fs1 = (inr doc, fsk) ->
     Path_rename (RELEASE_DIR // n) (DOCS_DIR // n) fsk = (inl e, fsk') ->
     make_docs fs = (inl e, fsk) /\ fsk' = fsk /\
     forall m, In m pre ->
       stat (RELEASE_DIR // m) fsk = inl FileNotFoundError /\
       (exists x, stat (RELEASE_DIR // m) fs = inr x) /\
       stat (DOCS_DIR // m) fsk = stat (RELEASE_DIR // m) fs) /\
  (forall doc fs2 e fs3, relocate fs = (inr doc, fs2) ->
     write_text INDEX_HTML (doc ++ index_foot) fs2 = (inl e, fs3) ->
     make_docs fs = (inl e, fs3) /\
     forall m, In m (dir_names (entries_of (stat RELEASE_DIR fs))) ->
       stat (RELEASE_DIR // m) fs3 = inl FileNotFoundError /\
       (exists x, stat (DOCS_DIR // m) fs3 = inr x) /\
       (m <> lit "index.html" ->
        stat (DOCS_DIR // m) fs3 = stat (RELEASE_DIR // m) fs)) /\
  (forall e fs', make_docs fs = (inl e, fs') ->
     exit_status (fst (make_docs fs)) = 1%Z /\
     traceback (fst (make_docs fs)) = Some e).
Proof.
  split; [|split; [|split; [|split]]].
  - intros e fs1 Hm. unfold make_docs, relocate, bind. rewrite Hm.
    split; [reflexivity|].
    rewrite ensure_destination_cases in Hm.
    destruct (stat DOCS_DIR fs) as [[]|[d|des]]; congruence.
  - intros fs1 e fs2 Hm Hl. unfold make_docs, relocate, bind.
    rewrite Hm, Hl. rewrite iterdir_cases in Hl.
    destruct (stat RELEASE_DIR fs1) as [e1|[d|es]]; try discriminate;
      injection Hl as <- <-; auto.
  - intros fs1 pre n post doc fsk e fsk' Hm Hl Hpre Hn.
    destruct (run_stops_at_failed_move _ _ _ _ _ _ _ _ _ Hm Hl Hpre Hn)
      as (Hr & -> & ses & ses' & des' & Es & Es' & Ed' & Hin & _).
    split; [unfold make_docs, bind; now rewrite Hr|]. split; [reflexivity|].
    intros m Hmm. destruct (Hin m Hmm) as (H1 & H2 & H3).
    rewrite (stat_child _ m _ _ Es'), (stat_child _ m _ _ Ed'),
      (stat_child _ m _ _ Es), H1, H3.
    destruct (dir_lookup m ses) as [x|]; [eauto|contradiction].
  - intros doc fs2 e fs3 Hr Hw.
    destruct (run_stops_at_failed_write _ _ _ _ _ Hr Hw)
      as (Hrun & ses & des2 & Es & Ed2 & Hin & Es3 & Ed3).
    split; [exact Hrun|]. rewrite Es. cbn [entries_of].
    intros m Hmm. pose proof (Hin m Hmm) as Hl.
    apply dir_lookup_Some in Hmm as [x Hx].
    rewrite (stat_child _ m _ _ Es3), (stat_child _ m _ _ Es), Hx.
    split; [reflexivity|].
    destruct Ed3 as [Ed3|Ed3]; rewrite (stat_child _ m _ _ Ed3).
    + rewrite Hl, Hx. eauto.
    + destruct (str_eq_dec (lit "index.html") m) as [<-|Hi].
      * rewrite dir_lookup_put_eq. split; [eauto|]. congruence.
      * rewrite dir_lookup_put_ne, Hl, Hx by assumption. eauto.
  - intros e fs' H. now rewrite H.
Qed.

Lemma first_failure_ends_the_run_witness :
  make_docs Samples.blocked = (inl IsADirectoryError, Samples.blocked_after_one) /\
  Samples.blocked_after_one = Samples.blocked_after_one /\
  forall m, In m [lit "index.html"] ->
    stat (RELEASE_DIR // m) Samples.blocked_after_one = inl FileNotFoundError /\
    (exists x, stat (RELEASE_DIR // m) Samples.blocked = inr x) /\
    stat (DOCS_DIR // m) Samples.blocked_after_one
      = stat (RELEASE_DIR // m) Samples.blocked.
Proof.
  apply (proj1 (proj2 (proj2 (first_failure_ends_the_run Samples.blocked)))
           Samples.blocked [lit "index.html"] (lit "deps") []
           (index_head ++ list_item (lit "index.html"))
           Samples.blocked_after_one IsADirectoryError
           Samples.blocked_after_one);
    vm_compute; reflexivity.
Defined.

(** C10, as the script has it: the index is written only after the loop.
    When a move raises, the run ends inside the loop with that exception
    and the write step is not run.  The index.html of the destination
    directory is then what it was before the run, unless the source
    directory had an entry named index.html that was moved before the
    failure: then it is that entry. *)
Theorem failed_move_skips_write fs fs1 pre n post doc fsk e fsk' :
  Path_mkdir DOCS_DIR true true fs = (inr tt, fs1) ->
  iterdir RELEASE_DIR fs1
    = (inr (map (Child RELEASE_DIR) (pre ++ n :: post)), fs1) ->
  for_files (map (Child RELEASE_DIR) pre) index_head fs1 = (inr doc, fsk) ->
  Path_rename (RELEASE_DIR // n) (DOCS_DIR // n) fsk = (inl e, fsk') ->
  relocate fs = (inl e, fsk) /\
  make_docs fs = (inl e, fsk) /\
  (~ In (lit "index.html") pre -> stat INDEX_HTML fsk = stat INDEX_HTML fs) /\
  (In (lit "index.html") pre ->
   stat INDEX_HTML fsk = stat (RELEASE_DIR // lit "index.html") fs).
Proof.
  intros Hm Hl Hpre Hn.
  destruct (run_stops_at_failed_move _ _ _ _ _ _ _ _ _ Hm Hl Hpre Hn)
    as (Hr & -> & ses & ses' & des' & Es & Es' & Ed' & Hin & Hout).
  split; [exact Hr|].
  split; [unfold make_docs, bind; now rewrite Hr|].
  unfold INDEX_HTML at 1 3. rewrite (stat_child _ _ _ _ Ed'). split.
  - intros Hi. rewrite (Hout _ Hi).
    rewrite <- (ensure_destination_keeps_index fs fs1 Hm).
    destruct (ensure_destination_ok fs fs1 Hm) as (Ed1 & _).
    unfold INDEX_HTML. now rewrite (stat_child _ _ _ _ Ed1).
  - intros Hi. destruct (Hin _ Hi) as (_ & _ & ->).
    now rewrite (stat_child _ _ _ _ Es).
Qed.

Lemma failed_move_skips_write_witness :
  relocate Samples.blocked = (inl IsADirectoryError, Samples.blocked_after_one) /\
  make_docs Samples.blocked = (inl IsADirectoryError, Samples.blocked_after_one) /\
  (~ In (lit "index.html") [lit "index.html"] ->
   stat INDEX_HTML Samples.blocked_after_one = stat INDEX_HTML Samples.blocked) /\
  (In (lit "index.html") [lit "index.html"] ->
   stat INDEX_HTML Samples.blocked_after_one
     = stat (RELEASE_DIR // lit "index.html") Samples.blocked).
Proof.
  apply (failed_move_skips_write Samples.blocked Samples.blocked
           [lit "index.html"] (lit "deps") []
           (index_head ++ list_item (lit "index.html"))
           Samples.blocked_after_one IsADirectoryError
           Samples.blocked_after_one);
    vm_compute; reflexivity.
Defined.

(** C10, as the specification states it, fails when an entry named index.html is moved
    before the move that raises: the run ends with the exception of the
    move of deps, and the index.html that an earlier run left in the
    destination directory has been replaced by the entry of the source
    directory. *)
Lemma failed_move_after_index_move :
  Path_rename (RELEASE_DIR // lit "deps") (DOCS_DIR // lit "deps")
    Samples.blocked_after_one
    = (inl IsADirectoryError, Samples.blocked_after_one) /\
  make_docs Samples.blocked = (inl IsADirectoryError, Samples.blocked_after_one) /\
  stat INDEX_HTML Samples.blocked = inr (Samples.bin "<h1>") /\
  stat INDEX_HTML Samples.blocked_after_one = inr (Samples.bin "mine") /\
  stat INDEX_HTML (snd (make_docs Samples.blocked)) <> stat INDEX_HTML Samples.blocked.
Proof. repeat split. discriminate. Qed.

End Failures.

(** ** An entry named index.html *)

Section IndexEntry.

Implicit Types (fs : node) (ses : list dirent) (x : node).




(** The scenario of the three binaries, end to end. *)
Lemma three_binaries :
  make_docs Samples.fresh =
  (inr tt,
   Dir [Samples.script;
        (lit "target", Dir [(lit "release", Dir [])]);
        (lit "docs",
         Dir [(lit "tool-linux", Samples.bin "ELF");
              (lit "tool-windows.exe", Samples.bin "MZ");
              (lit "tool & co.bin", Samples.bin "CO");
              (lit "index.html",
               File
                 (blit "<h1>Binary builds</h1>" ++ [x0a] ++ blit "<ul>" ++ [x0a]
                  ++ blit "<li><a href=" ++ [x22] ++ blit "tool-linux" ++ [x22]
                  ++ blit ">tool-linux</a></li>" ++ [x0a]
                  ++ blit "<li><a href=" ++ [x22] ++ blit "tool-windows.exe"
                  ++ [x22] ++ blit ">tool-windows.exe</a></li>" ++ [x0a]
                  ++ blit "<li><a href=" ++ [x22] ++ blit "tool &amp; co.bin"
                  ++ [x22] ++ blit ">tool &amp; co.bin</a></li>" ++ [x0a]
                  ++ blit "</ul>" ++ [x0a]))])]).
Proof. vm_compute. reflexivity. Qed.

(** A name that UTF-8 cannot encode: the entry is moved, index.html is
    opened, hence empty, and the encoding raises. *)
Lemma undecodable_name :
  fst (make_docs Samples.undecodable) = inl UnicodeEncodeError /\
  stat INDEX_HTML (snd (make_docs Samples.undecodable)) = inr (File []) /\
  stat (DOCS_DIR // [0xDCFF]) (snd (make_docs Samples.undecodable))
    = inr (Samples.bin "ELF").
Proof. repeat split. Qed.

End IndexEntry.

(** ** More on the escaping step *)

Section EscapingMore.

Implicit Types (n m s : str) (c : N).

Lemma count_occ_absent (l : str) c : ~ In c l -> count_occ N.eq_dec l c = 0%nat.
Proof. apply count_occ_not_In. Qed.

Lemma escape_clean n c :
  In c (escape n true) -> c <> 60 /\ c <> 62 /\ c <> 34 /\ c <> 39.
Proof. rewrite escape_refines. apply escape_spec_clean. Qed.

(** X1: two entries with different names never get the same link: the
    escaped names differ, and so do the list items written for them. *)
Theorem distinct_names_distinct_links n m :
  n <> m ->
  escape n true <> escape m true /\
  list_item (escape n true) <> list_item (escape m true).
Proof.
  intros Hnm. split; intros E; apply Hnm.
  - now apply escape_inj.
  - now apply entry_line_inj.
Qed.

Lemma distinct_names_distinct_links_witness :
  escape (lit "a&b") true <> escape (lit "a&amp;b") true /\
  list_item (escape (lit "a&b") true) <> list_item (escape (lit "a&amp;b") true).
Proof.
  apply (distinct_names_distinct_links (lit "a&b") (lit "a&amp;b")).
  discriminate.
Defined.

(** X2: whatever the name of an entry, its list item has the markup of the
    f-string and no more: the escaped name holds no angle bracket, double
    quote or apostrophe, so that the item holds exactly two double quotes,
    four opening and four closing angle brackets. *)
Theorem list_item_markup_is_fixed n :
  Forall (fun c => c <> 60 /\ c <> 62 /\ c <> QUOT /\ c <> 39) (escape n true) /\
  count_occ N.eq_dec (list_item (escape n true)) QUOT = 2%nat /\
  count_occ N.eq_dec (list_item (escape n true)) 60 = 4%nat /\
  count_occ N.eq_dec (list_item (escape n true)) 62 = 4%nat.
Proof.
  split; [apply Forall_forall; intros c; apply escape_clean|].
  assert (H : forall c, (c = 60 \/ c = 62 \/ c = 34) ->
            count_occ N.eq_dec (escape n true) c = 0%nat).
  { intros c Hc. apply count_occ_absent. intros Hin.
    apply escape_clean in Hin. intuition congruence. }
  unfold list_item, QUOT. rewrite !count_occ_app, !H by tauto.
  repeat split.
Qed.

Lemma length_escape_spec_ge s : (length s <= length (escape_spec s))%nat.
Proof.
  unfold escape_spec. induction s as [|c s IH]; simpl; [lia|].
  rewrite length_app.
  destruct (entity_cases c)
    as [[_ E]|[[_ E]|[[_ E]|[[_ E]|[[_ E]|(_&_&_&_&_&E)]]]]];
    rewrite E; simpl; lia.
Qed.

(** X3: the link of an entry is its name, unchanged, exactly when the name
    has none of the five characters that are escaped. *)
Theorem escape_is_identity_iff n :
  escape n true = n <->
  Forall (fun c => c <> 38 /\ c <> 60 /\ c <> 62 /\ c <> QUOT /\ c <> 39) n.
Proof.
  rewrite escape_refines. unfold escape_spec, QUOT.
  induction n as [|c n IH]; simpl.
  - split; [constructor|reflexivity].
  - pose proof (length_escape_spec_ge n) as Hlen. unfold escape_spec in Hlen.
    destruct (entity_cases c)
      as [[-> E]|[[-> E]|[[-> E]|[[-> E]|[[-> E]|(H1&H2&H3&H4&H5&E)]]]]];
      rewrite E.
    1-5: split;
      [intros H; apply (f_equal (@length N)) in H; simpl in H; lia
      |intros H; inversion H; intuition congruence].
    split.
    + simpl. intros [= H]. constructor; [auto|]. now apply IH.
    + intros H. inversion H; subst. simpl. f_equal. now apply IH.
Qed.

End EscapingMore.

(** ** Any run, failed or not *)

Section AnyRun.

Implicit Types (n m : str) (x : node) (fs : node) (ses des : list dirent)
  (ns : list str) (acc doc : str).

(** Where each name is found when the loop ends, with or without an
    exception: as before the loop, or moved. *)
Lemma for_files_any ns : forall acc fs ses des r fs',
  stat RELEASE_DIR fs = inr (Dir ses) ->
  stat DOCS_DIR fs = inr (Dir des) ->
  for_files (map (Child RELEASE_DIR) ns) acc fs = (r, fs') ->
  exists ses' des',
    stat RELEASE_DIR fs' = inr (Dir ses') /\
    stat DOCS_DIR fs' = inr (Dir des') /\
    forall m,
      (dir_lookup m ses' = dir_lookup m ses /\
       dir_lookup m des' = dir_lookup m des) \/
      (dir_lookup m ses' = None /\ dir_lookup m ses <> None /\
       dir_lookup m des' = dir_lookup m ses).
Proof.
  induction ns as [|n ns IH]; intros acc fs ses des r fs' Es Ed.
  - simpl. intros [= <- <-]. exists ses, des. auto.
  - cbn [map for_files name]. unfold bind.
    rewrite (relocate_one n ses des fs Es Ed).
    destruct (dir_lookup n ses) as [x|] eqn:El;
      [|intros [= <- <-]; exists ses, des; auto].
    destruct (rename_conflict x (dir_lookup n des));
      [intros [= <- <-]; exists ses, des; auto|].
    destruct (relocate_one_dirs n x ses des fs Es Ed) as [Es1 Ed1].
    intros Hrest.
    destruct (IH _ _ _ _ _ _ Es1 Ed1 Hrest) as (ses' & des' & Es' & Ed' & H).
    exists ses', des'. split; [exact Es'|]. split; [exact Ed'|].
    intros m. destruct (str_eq_dec n m) as [<-|Hnm].
    + right. destruct (H n) as [[H1 H2]|(_ & H2 & _)].
      * rewrite H1, H2, dir_lookup_remove_eq, dir_lookup_put_eq, El.
        repeat split; congruence.
      * now rewrite dir_lookup_remove_eq in H2.
    + destruct (H m) as [[H1 H2]|(H1 & H2 & H3)];
        rewrite dir_lookup_remove_ne in * by assumption;
        rewrite ?dir_lookup_put_ne in * by assumption; auto.
Qed.

(** The two directories after the write step, raised or not. *)
Lemma write_text_any doc des fs r fs' :
  stat DOCS_DIR fs = inr (Dir des) ->
  write_text INDEX_HTML doc fs = (r, fs') ->
  stat RELEASE_DIR fs' = stat RELEASE_DIR fs /\
  exists des',
    stat DOCS_DIR fs' = inr (Dir des') /\
    (forall m, m <> lit "index.html" -> dir_lookup m des' = dir_lookup m des) /\
    (forall m, In m (dir_names des) -> In m (dir_names des')).
Proof.
  intros Ed Hw. rewrite (write_index_cases _ des fs Ed) in Hw.
  destruct (store_index_dirs (File []) des fs Ed) as [Ed1 Es1].
  assert (Hput : forall y,
            (forall m, m <> lit "index.html" ->
               dir_lookup m (dir_put (lit "index.html") y des) = dir_lookup m des) /\
            (forall m, In m (dir_names des) ->
               In m (dir_names (dir_put (lit "index.html") y des)))).
  { intros y. split.
    - intros m Hm. apply dir_lookup_put_ne. congruence.
    - intros m Hm. apply dir_names_put. now right. }
  destruct (dir_lookup (lit "index.html") des) as [[d|ys]|];
    destruct (encode_utf8 doc) as [bs|];
    apply (f_equal snd) in Hw; cbn [snd] in Hw; subst fs';
    try (split; [reflexivity|]; exists des; now auto);
    try (split; [exact Es1|];
         exists (dir_put (lit "index.html") (File []) des);
         split; [exact Ed1|apply Hput]);
    destruct (store_index_dirs (File bs) _ _ Ed1) as [Ed2 Es2];
    rewrite dir_put_put in Ed2;
    (split; [now rewrite Es2|]);
    exists (dir_put (lit "index.html") (File bs) des);
    (split; [exact Ed2|apply Hput]).
Qed.

(** The two directories at the end of any run that got past the
    ensure-destination step and found the source directory. *)
Lemma make_docs_any fs fs1 ses r fs' :
  Path_mkdir DOCS_DIR true true fs = (inr tt, fs1) ->
  stat RELEASE_DIR fs = inr (Dir ses) ->
  make_docs fs = (r, fs') ->
  exists ses' des',
    stat RELEASE_DIR fs' = inr (Dir ses') /\
    stat DOCS_DIR fs' = inr (Dir des') /\
    (forall m, m <> lit "index.html" ->
      (dir_lookup m ses' = dir_lookup m ses /\
       dir_lookup m des' = dir_lookup m (entries_of (stat DOCS_DIR fs))) \/
      (dir_lookup m ses' = None /\ dir_lookup m ses <> None /\
       dir_lookup m des' = dir_lookup m ses)) /\
    (forall m, In m (dir_names (entries_of (stat DOCS_DIR fs))) ->
       In m (dir_names des')).
Proof.
  intros Hm Es. destruct (ensure_destination_ok fs fs1 Hm) as (Ed1 & Es1 & _).
  rewrite Es in Es1. set (des := entries_of (stat DOCS_DIR fs)) in *.
  unfold make_docs, relocate, bind. rewrite Hm, iterdir_cases, Es1.
  destruct (for_files (map (Child RELEASE_DIR) (dir_names ses)) index_head fs1)
    as [[e|doc] fs2] eqn:Hloop;
    destruct (for_files_any _ _ _ _ _ _ _ Es1 Ed1 Hloop)
      as (ses2 & des2 & Es2 & Ed2 & H).
  - intros [= <- <-]. exists ses2, des2. repeat split; auto.
    intros m Hin. apply dir_lookup_Some. apply dir_lookup_Some in Hin as [y Hy].
    destruct (H m) as [[_ ->]|(_ & Hs & ->)]; [eauto|].
    destruct (dir_lookup m ses); [eauto|contradiction].
  - intros Hw.
    destruct (write_text_any _ des2 fs2 _ _ Ed2 Hw) as (Es3 & des3 & Ed3 & Hne & Hnames).
    exists ses2, des3. rewrite Es3. repeat split; auto.
    + intros m Hi. rewrite (Hne m Hi). apply H.
    + intros m Hin. apply Hnames.
      apply dir_lookup_Some. apply dir_lookup_Some in Hin as [y Hy].
      destruct (H m) as [[_ ->]|(_ & Hs & ->)]; [eauto|].
      destruct (dir_lookup m ses); [eauto|contradiction].
Qed.

End AnyRun.

(** ** When the run succeeds *)

Section Success.

Implicit Types (n m : str) (x : node) (fs : node) (ses des : list dirent)
  (ns : list str) (acc doc : str).

(** X4: when [docs] is a regular file the run raises FileExistsError in its
    first call and changes nothing, whatever the source directory holds:
    [exist_ok] forgives a directory, not a file. *)
Theorem docs_regular_file_stops_the_run fs (d : list byte) :
  stat DOCS_DIR fs = inr (File d) ->
  make_docs fs = (inl FileExistsError, fs).
Proof.
  intros Ed. unfold make_docs, relocate, bind.
  now rewrite ensure_destination_cases, Ed.
Qed.

Lemma docs_regular_file_stops_the_run_witness :
  make_docs Samples.docs_is_file = (inl FileExistsError, Samples.docs_is_file).
Proof.
  apply (docs_regular_file_stops_the_run Samples.docs_is_file (blit "notes")).
  reflexivity.
Defined.

(** X5: when [target/release] is there but is not a directory, or [target]
    is a regular file, the run raises NotADirectoryError after the
    ensure-destination step: [docs] exists afterwards, nothing is moved and
    the index file is what it was. *)
Theorem source_not_a_directory fs fs1 :
  (exists d, stat RELEASE_DIR fs = inr (File d)) \/
  stat RELEASE_DIR fs = inl NotADirectoryError ->
  Path_mkdir DOCS_DIR true true fs = (inr tt, fs1) ->
  make_docs fs = (inl NotADirectoryError, fs1) /\
  stat RELEASE_DIR fs1 = stat RELEASE_DIR fs /\
  stat INDEX_HTML fs1 = stat INDEX_HTML fs /\
  exists des, stat DOCS_DIR fs1 = inr (Dir des).
Proof.
  intros Hs Hm. destruct (ensure_destination_ok fs fs1 Hm) as (Ed1 & Es1 & _).
  split; [|split; [exact Es1|split; [now apply ensure_destination_keeps_index|eauto]]].
  unfold make_docs, relocate, bind. rewrite Hm, iterdir_cases, Es1.
  now destruct Hs as [[d ->]| ->].
Qed.

Lemma source_not_a_directory_witness :
  make_docs Samples.release_is_file
    = (inl NotADirectoryError, store DOCS_DIR (Dir []) Samples.release_is_file) /\
  stat RELEASE_DIR (store DOCS_DIR (Dir []) Samples.release_is_file)
    = stat RELEASE_DIR Samples.release_is_file /\
  stat INDEX_HTML (store DOCS_DIR (Dir []) Samples.release_is_file)
    = stat INDEX_HTML Samples.release_is_file /\
  exists des,
    stat DOCS_DIR (store DOCS_DIR (Dir []) Samples.release_is_file) = inr (Dir des).
Proof.
  apply (source_not_a_directory Samples.release_is_file).
  - left. exists (blit "ELF"). reflexivity.
  - reflexivity.
Defined.

(** The loop ends without an exception when the names are distinct and
    each one is in the source directory and can take its place in the
    destination directory. *)
Lemma for_files_complete ns : forall acc fs ses des,
  stat RELEASE_DIR fs = inr (Dir ses) ->
  stat DOCS_DIR fs = inr (Dir des) ->
  NoDup ns ->
  (forall n, In n ns -> exists x,
     dir_lookup n ses = Some x /\ rename_conflict x (dir_lookup n des) = None) ->
  exists acc' fs', for_files (map (Child RELEASE_DIR) ns) acc fs = (inr acc', fs').
Proof.
  induction ns as [|n ns IH]; intros acc fs ses des Es Ed Hnd H.
  - simpl. unfold ret. eauto.
  - cbn [map for_files name]. unfold bind.
    rewrite (relocate_one n ses des fs Es Ed).
    destruct (H n (or_introl eq_refl)) as (x & -> & ->).
    destruct (relocate_one_dirs n x ses des fs Es Ed) as [Es1 Ed1].
    inversion Hnd as [|? ? Hn Hnd']; subst.
    apply (IH _ _ _ _ Es1 Ed1 Hnd').
    intros m Hm. assert (Hnm : n <> m) by congruence.
    rewrite dir_lookup_remove_ne, dir_lookup_put_ne by assumption.
    apply H. now right.
Qed.

(** In a loop that ended without an exception every name could take its
    place in the destination directory as it was before the loop. *)
Lemma for_files_conflict_free ns : forall acc fs ses des acc' fs',
  stat RELEASE_DIR fs = inr (Dir ses) ->
  stat DOCS_DIR fs = inr (Dir des) ->
  for_files (map (Child RELEASE_DIR) ns) acc fs = (inr acc', fs') ->
  forall n x, In n ns -> dir_lookup n ses = Some x ->
    rename_conflict x (dir_lookup n des) = None.
Proof.
  induction ns as [|n0 ns IH]; intros acc fs ses des acc' fs' Es Ed;
    [intros _ n x []|].
  cbn [map for_files name]. unfold bind.
  rewrite (relocate_one n0 ses des fs Es Ed).
  destruct (dir_lookup n0 ses) as [x0|] eqn:El; [|discriminate].
  destruct (rename_conflict x0 (dir_lookup n0 des)) eqn:Ec; [discriminate|].
  destruct (relocate_one_dirs n0 x0 ses des fs Es Ed) as [Es1 Ed1].
  intros Hrest n x [<-|Hn] Hx.
  - congruence.
  - destruct (for_files_ok _ _ _ _ _ _ _ Es1 Ed1 Hrest)
      as (_ & _ & ses' & des' & _ & _ & Hin & _).
    assert (Hnn : n0 <> n).
    { intros <-. destruct (Hin n0 Hn) as (_ & H & _).
      apply H. apply dir_lookup_remove_eq. }
    rewrite <- (dir_lookup_put_ne n0 n x0 des Hnn).
    apply (IH _ _ _ _ _ _ Es1 Ed1 Hrest n x Hn).
    now rewrite dir_lookup_remove_ne.
Qed.

Lemma encodable_entity (c : N) : forallb encodable (entity c) = encodable c.
Proof.
  destruct (entity_cases c)
    as [[-> E]|[[-> E]|[[-> E]|[[-> E]|[[-> E]|(_&_&_&_&_&E)]]]]];
    rewrite E; try reflexivity.
  simpl. apply andb_true_r.
Qed.

Lemma encodable_escape n : forallb encodable (escape n true) = forallb encodable n.
Proof.
  rewrite escape_refines. unfold escape_spec.
  induction n as [|c n IH]; [reflexivity|].
  simpl. now rewrite forallb_app, encodable_entity, IH.
Qed.

(** The text can be encoded exactly when the names can. *)
Lemma encodable_document ns :
  forallb encodable (document ns) = forallb (forallb encodable) ns.
Proof.
  unfold document. rewrite !forallb_app.
  change (forallb encodable index_head) with true.
  change (forallb encodable index_foot) with true.
  rewrite andb_true_r. cbn [andb].
  induction ns as [|n ns IH]; [reflexivity|].
  cbn [map concat forallb]. rewrite forallb_app, IH. f_equal.
  unfold entry_line, list_item. rewrite !forallb_app, encodable_escape.
  cbn. now rewrite !andb_true_r, andb_diag.
Qed.

(** What index.html of the destination directory is when the loop has
    ended: the entry of the source directory, if it had one of that name,
    or else what the destination had. *)
Lemma index_after_loop ses des des2 :
  (forall m, In m (dir_names ses) -> dir_lookup m des2 = dir_lookup m ses) ->
  (forall m, ~ In m (dir_names ses) -> dir_lookup m des2 = dir_lookup m des) ->
  dir_lookup (lit "index.html") des2 =
  match dir_lookup (lit "index.html") ses with
  | Some x => Some x
  | None => dir_lookup (lit "index.html") des
  end.
Proof.
  intros Hin Hout.
  destruct (dir_lookup (lit "index.html") ses) as [x|] eqn:E.
  - rewrite Hin, E; [reflexivity|]. apply dir_lookup_Some. eauto.
  - apply Hout. now apply dir_lookup_None.
Qed.

(** The conditions under which the run succeeds are sufficient. *)
Lemma run_succeeds_when fs ses :
  stat RELEASE_DIR fs = inr (Dir ses) ->
  (stat DOCS_DIR fs = inl FileNotFoundError \/
   exists des, stat DOCS_DIR fs = inr (Dir des)) ->
  NoDup (dir_names ses) ->
  (forall n x, dir_lookup n ses = Some x ->
     rename_conflict x (dir_lookup n (entries_of (stat DOCS_DIR fs))) = None) ->
  (forall ys,
     match dir_lookup (lit "index.html") ses with
     | Some x => Some x
     | None => dir_lookup (lit "index.html") (entries_of (stat DOCS_DIR fs))
     end <> Some (Dir ys)) ->
  forallb (forallb encodable) (dir_names ses) = true ->
  exists fs', make_docs fs = (inr tt, fs').
Proof.
  intros Es Hd Hnd Hc Hi He.
  assert (Hm : exists fs1, Path_mkdir DOCS_DIR true true fs = (inr tt, fs1)).
  { rewrite ensure_destination_cases. destruct Hd as [->|[des ->]]; eauto. }
  destruct Hm as [fs1 Hm].
  destruct (ensure_destination_ok fs fs1 Hm) as (Ed1 & Es1 & _).
  rewrite Es in Es1. set (des := entries_of (stat DOCS_DIR fs)) in *.
  destruct (for_files_complete (dir_names ses) index_head fs1 ses des Es1 Ed1 Hnd)
    as (doc & fs2 & Hloop).
  { intros n Hn. apply dir_lookup_Some in Hn as [x Hx]. eauto. }
  destruct (for_files_ok _ _ _ _ _ _ _ Es1 Ed1 Hloop)
    as (-> & _ & ses2 & des2 & Es2 & Ed2 & Hin & Hout).
  unfold make_docs, relocate, bind. rewrite Hm, iterdir_cases, Es1, Hloop.
  rewrite (write_index_cases _ des2 fs2 Ed2).
  rewrite (index_after_loop ses des des2).
  - rewrite <- app_assoc. fold (document (dir_names ses)).
    unfold encode_utf8. rewrite encodable_document, He.
    destruct (match dir_lookup (lit "index.html") ses with
              | Some x => Some x
              | None => dir_lookup (lit "index.html") des
              end) as [[d|ys]|] eqn:E; eauto.
    now destruct (Hi ys).
  - intros m Hmm. now destruct (Hin m Hmm) as (_ & _ & H).
  - intros m Hmm. now destruct (Hout m Hmm).
Qed.

(** X6: the run succeeds if and only if [target/release] is a directory;
    [docs] is absent or a directory; the names of the source directory are
    distinct; each entry can take its place in [docs] (nothing there under
    its name, or a file for a file, or an empty directory for a directory);
    what will be at [docs/index.html] after the loop is not a directory;
    and no name holds a code point that UTF-8 cannot encode. *)
Theorem run_succeeds_iff fs :
  (exists fs', make_docs fs = (inr tt, fs')) <->
  exists ses,
    stat RELEASE_DIR fs = inr (Dir ses) /\
    (stat DOCS_DIR fs = inl FileNotFoundError \/
     exists des, stat DOCS_DIR fs = inr (Dir des)) /\
    NoDup (dir_names ses) /\
    (forall n x, dir_lookup n ses = Some x ->
       rename_conflict x (dir_lookup n (entries_of (stat DOCS_DIR fs))) = None) /\
    (forall ys,
       match dir_lookup (lit "index.html") ses with
       | Some x => Some x
       | None => dir_lookup (lit "index.html") (entries_of (stat DOCS_DIR fs))
       end <> Some (Dir ys)) /\
    forallb (forallb encodable) (dir_names ses) = true.
Proof.
  split.
  - intros [fs' H].
    destruct (make_docs_index fs fs' H) as (ses & Es & Hnd & Henc & _).
    exists ses. split; [exact Es|].
    revert H. unfold make_docs, relocate, bind.
    destruct (Path_mkdir DOCS_DIR true true fs) as [[e|[]] fs1] eqn:Hm;
      [discriminate|].
    destruct (ensure_destination_ok fs fs1 Hm) as (Ed1 & Es1 & Hd).
    rewrite Es in Es1. rewrite iterdir_cases, Es1.
    destruct (for_files (map (Child RELEASE_DIR) (dir_names ses)) index_head fs1)
      as [[e|doc] fs2] eqn:Hloop; [discriminate|].
    destruct (for_files_ok _ _ _ _ _ _ _ Es1 Ed1 Hloop)
      as (_ & _ & ses2 & des2 & Es2 & Ed2 & Hin & Hout).
    rewrite (write_index_cases _ des2 fs2 Ed2).
    rewrite (index_after_loop ses (entries_of (stat DOCS_DIR fs)) des2);
      [|intros m Hmm; now destruct (Hin m Hmm) as (_ & _ & H)
       |intros m Hmm; now destruct (Hout m Hmm)].
    intros Hw.
    split; [destruct Hd as [(des & Hd & _)|[Hd _]]; eauto|].
    split; [exact Hnd|].
    split; [|split; [|now rewrite <- encodable_document]].
    + intros n x Hx.
      apply (for_files_conflict_free _ _ _ _ _ _ _ Es1 Ed1 Hloop n x); [|exact Hx].
      apply dir_lookup_Some. eauto.
    + intros ys E. rewrite E in Hw. discriminate.
  - intros (ses & Es & Hd & Hnd & Hc & Hi & He).
    now apply (run_succeeds_when fs ses).
Qed.

End Success.

(** ** What a run leaves alone *)

Section Frame.

(** A path that no store under [docs] or under [target/release] can
    change. *)
Variable P : path.

Hypothesis docs_frame : forall (r : path) (x fs : node),
  stat P (store (papp DOCS_DIR r) x fs) = stat P fs.

Hypothesis release_frame : forall (r : path) (x fs : node),
  stat P (store (papp RELEASE_DIR r) x fs) = stat P fs.

Lemma mkdir_frame (fs : node) r fs1 :
  Path_mkdir DOCS_DIR true true fs = (r, fs1) -> stat P fs1 = stat P fs.
Proof.
  rewrite ensure_destination_cases.
  destruct (stat DOCS_DIR fs) as [[]|[d|des]]; intros [= _ <-];
    try reflexivity.
  exact (docs_frame Here (Dir []) fs).
Qed.

Lemma rename_frame (n : str) (fs : node) r fs1 :
  Path_rename (RELEASE_DIR // n) (DOCS_DIR // n) fs = (r, fs1) ->
  stat P fs1 = stat P fs.
Proof.
  unfold Path_rename, os_rename, bind, get, raise, ret, modify.
  destruct (stat (RELEASE_DIR // n) fs) as [e|x]; [now intros [= _ <-]|].
  destruct (stat DOCS_DIR fs) as [e|[d|des]]; try now intros [= _ <-].
  destruct (path_eqb (RELEASE_DIR // n) (DOCS_DIR // n)); [now intros [= _ <-]|].
  destruct (inside (RELEASE_DIR // n) (DOCS_DIR // n)); [now intros [= _ <-]|].
  destruct (rename_conflict x (dir_lookup n des)); [now intros [= _ <-]|].
  intros H. apply (f_equal snd) in H. cbn [snd] in H. subst fs1.
  rewrite (docs_frame (Here // n)). unfold unlink.
  destruct (stat RELEASE_DIR fs) as [e|[d|ses]]; try reflexivity.
  exact (release_frame Here _ fs).
Qed.

Lemma for_files_frame (ns : list str) : forall (acc : str) (fs : node) r fs1,
  for_files (map (Child RELEASE_DIR) ns) acc fs = (r, fs1) ->
  stat P fs1 = stat P fs.
Proof.
  induction ns as [|n ns IH]; intros acc fs r fs1.
  - now intros [= _ <-].
  - cbn [map for_files name]. unfold bind.
    destruct (Path_rename (RELEASE_DIR // n) (DOCS_DIR // n) fs)
      as [[e|[]] fs0] eqn:Hn; pose proof (rename_frame _ _ _ _ Hn) as H0.
    + now intros [= _ <-].
    + intros H. now rewrite (IH _ _ _ _ H).
Qed.

Lemma write_frame (doc : str) (fs : node) r fs1 :
  write_text INDEX_HTML doc fs = (r, fs1) -> stat P fs1 = stat P fs.
Proof.
  unfold write_text, INDEX_HTML, open_w, bind, get, raise, modify.
  destruct (stat DOCS_DIR fs) as [e|[d|des]]; try now intros [= _ <-].
  pose proof (docs_frame (Here // lit "index.html")) as Hf. cbn [papp] in Hf.
  destruct (dir_lookup (lit "index.html") des) as [[d|ys]|];
    try (now intros [= _ <-]);
    destruct (encode_utf8 doc); intros H;
    apply (f_equal snd) in H; cbn [snd] in H; subst fs1;
    now rewrite !Hf.
Qed.

Lemma make_docs_frame (fs : node) : stat P (snd (make_docs fs)) = stat P fs.
Proof.
  unfold make_docs, relocate, bind.
  destruct (Path_mkdir DOCS_DIR true true fs) as [[e|[]] fs1] eqn:Hm;
    pose proof (mkdir_frame _ _ _ Hm) as H1; [exact H1|].
  rewrite iterdir_cases.
  destruct (stat RELEASE_DIR fs1) as [e|[d|ses]]; try exact H1.
  destruct (for_files (map (Child RELEASE_DIR) (dir_names ses)) index_head fs1)
    as [[e|doc] fs2] eqn:Hl; pose proof (for_files_frame _ _ _ _ _ Hl) as H2;
    [cbn [snd]; congruence|].
  destruct (write_text INDEX_HTML (doc ++ index_foot) fs2) as [r fs3] eqn:Hw.
  pose proof (write_frame _ _ _ _ Hw) as H3.
  cbn [snd]. congruence.
Qed.

End Frame.

Section Neighbours.

Implicit Types (m : str) (c r rest : path) (fs : node).

Lemma papp_child c (a : str) r : papp (c // a) r = papp c (papp (Here // a) r).
Proof. induction r as [|r IH k]; simpl; congruence. Qed.

(** X8: a run, failed or not, changes nothing outside [docs] and
    [target/release]: whatever lies beside them next to the script (the
    script itself, the sources), and whatever lies beside [release] in
    [target], resolves afterwards to what it resolved to before. *)
Theorem run_leaves_the_rest_alone fs m rest :
  (m <> lit "docs" -> m <> lit "target" ->
   stat (papp (Here // m) rest) (snd (make_docs fs))
   = stat (papp (Here // m) rest) fs) /\
  (m <> lit "release" ->
   stat (papp (Here // lit "target" // m) rest) (snd (make_docs fs))
   = stat (papp (Here // lit "target" // m) rest) fs).
Proof.
  split.
  - intros Hd Ht. apply make_docs_frame.
    + intros r x fs0. apply stat_store_frame. congruence.
    + intros r x fs0. unfold RELEASE_DIR.
      rewrite (papp_child (Here // lit "target") (lit "release") r).
      apply stat_store_frame. congruence.
  - intros Hr. apply make_docs_frame.
    + intros r x fs0. rewrite (papp_child (Here // lit "target") m rest).
      apply stat_store_frame. discriminate.
    + intros r x fs0. apply stat_store_frame. congruence.
Qed.

Lemma run_leaves_the_rest_alone_witness :
  fst (make_docs Samples.with_neighbours) = inl IsADirectoryError /\
  stat (papp (Here // lit "src") (Here // lit "main.rs"))
    (snd (make_docs Samples.with_neighbours))
  = stat (papp (Here // lit "src") (Here // lit "main.rs")) Samples.with_neighbours /\
  stat (papp (Here // lit "target" // lit "debug") (Here // lit "tool"))
    (snd (make_docs Samples.with_neighbours))
  = stat (papp (Here // lit "target" // lit "debug") (Here // lit "tool"))
      Samples.with_neighbours.
Proof.
  split; [reflexivity|]. split.
  - apply (proj1 (run_leaves_the_rest_alone Samples.with_neighbours
                    (lit "src") (Here // lit "main.rs"))); discriminate.
  - apply (proj2 (run_leaves_the_rest_alone Samples.with_neighbours
                    (lit "debug") (Here // lit "tool"))); discriminate.
Defined.

End Neighbours.

(** ** Entries and names across a run *)

Section Conservation.

Implicit Types (n m : str) (x : node) (fs : node) (ses des : list dirent).

Lemma ensure_destination_raise fs (e : exn) fs1 :
  Path_mkdir DOCS_DIR true true fs = (inl e, fs1) -> fs1 = fs.
Proof.
  rewrite ensure_destination_cases.
  destruct (stat DOCS_DIR fs) as [[]|[d|des]]; congruence.
Qed.

(** X9: no run, failed or not, loses an entry of the source directory.
    When the run ends, each entry not named index.html is the node it
    was, either still in the source directory or in the destination
    directory and no longer in the source directory. *)
Theorem no_entry_is_lost fs ses m x :
  stat RELEASE_DIR fs = inr (Dir ses) ->
  dir_lookup m ses = Some x ->
  m <> lit "index.html" ->
  stat (RELEASE_DIR // m) (snd (make_docs fs)) = inr x \/
  (stat (RELEASE_DIR // m) (snd (make_docs fs)) = inl FileNotFoundError /\
   stat (DOCS_DIR // m) (snd (make_docs fs)) = inr x).
Proof.
  intros Es Hx Hm.
  destruct (Path_mkdir DOCS_DIR true true fs) as [[e|[]] fs1] eqn:Hmk.
  - left. unfold make_docs, relocate, bind. rewrite Hmk. cbn [snd].
    rewrite (ensure_destination_raise _ _ _ Hmk).
    now rewrite (stat_child _ m _ _ Es), Hx.
  - destruct (make_docs fs) as [r fs'] eqn:Hrun. cbn [snd].
    destruct (make_docs_any fs fs1 ses r fs' Hmk Es Hrun)
      as (ses' & des' & Es' & Ed' & H & _).
    rewrite (stat_child _ m _ _ Es'), (stat_child _ m _ _ Ed').
    destruct (H m Hm) as [[-> _]|(-> & _ & ->)]; rewrite Hx; auto.
Qed.

Lemma no_entry_is_lost_witness :
  stat (RELEASE_DIR // lit "tool") (snd (make_docs Samples.with_neighbours))
    = inr (Samples.bin "ELF") \/
  (stat (RELEASE_DIR // lit "tool") (snd (make_docs Samples.with_neighbours))
     = inl FileNotFoundError /\
   stat (DOCS_DIR // lit "tool") (snd (make_docs Samples.with_neighbours))
     = inr (Samples.bin "ELF")).
Proof.
  apply (no_entry_is_lost Samples.with_neighbours
           [(lit "tool.d", Samples.bin "D"); (lit "tool", Samples.bin "ELF")]).
  - reflexivity.
  - reflexivity.
  - discriminate.
Defined.

(** X10: no run, failed or not, takes a name out of the destination
    directory: every name it held before the run it still holds after. *)
Theorem destination_keeps_its_names fs m :
  In m (dir_names (entries_of (stat DOCS_DIR fs))) ->
  In m (dir_names (entries_of (stat DOCS_DIR (snd (make_docs fs))))).
Proof.
  intros Hin.
  destruct (stat DOCS_DIR fs) as [e|[d|des]] eqn:Ed; try contradiction.
  assert (Hmk : Path_mkdir DOCS_DIR true true fs = (inr tt, fs))
    by now rewrite ensure_destination_cases, Ed.
  destruct (stat RELEASE_DIR fs) as [e|[d|ses]] eqn:Es.
  - unfold make_docs, relocate, bind. rewrite Hmk, iterdir_cases, Es.
    cbn [snd]. now rewrite Ed.
  - unfold make_docs, relocate, bind. rewrite Hmk, iterdir_cases, Es.
    cbn [snd]. now rewrite Ed.
  - destruct (make_docs fs) as [r fs'] eqn:Hrun. cbn [snd].
    destruct (make_docs_any fs fs ses r fs' Hmk Es Hrun)
      as (ses' & des' & _ & Ed' & _ & H).
    rewrite Ed'. apply H. now rewrite Ed.
Qed.

Lemma destination_keeps_its_names_witness :
  In (lit "old.bin")
     (dir_names (entries_of (stat DOCS_DIR (snd (make_docs Samples.second_run))))).
Proof.
  apply (destination_keeps_its_names Samples.second_run (lit "old.bin")).
  simpl. auto.
Defined.

(** X7: a second run right after a run that succeeded succeeds too, finds
    the source directory empty, and writes an index without items: the
    entries that the first run moved stay in the destination directory,
    but index.html no longer links to them. *)
Theorem second_run_empties_the_index fs fs1 :
  make_docs fs = (inr tt, fs1) ->
  exists fs2,
    make_docs fs1 = (inr tt, fs2) /\
    stat INDEX_HTML fs2 =
      inr (File (blit "<h1>Binary builds</h1>" ++ [x0a] ++ blit "<ul>" ++ [x0a]
                   ++ blit "</ul>" ++ [x0a])) /\
    (forall m, m <> lit "index.html" ->
       stat (DOCS_DIR // m) fs2 = stat (DOCS_DIR // m) fs1) /\
    stat RELEASE_DIR fs2 = inr (Dir []).
Proof.
  intros H.
  destruct (make_docs_ok fs fs1 H)
    as (ses & des2 & _ & bs & _ & _ & _ & _ & Ed1 & Es1).
  destruct (run_succeeds_when fs1 [] Es1) as [fs2 H2].
  - right. eauto.
  - constructor.
  - intros n x [=].
  - intros ys. rewrite Ed1. cbn [dir_lookup entries_of].
    now rewrite dir_lookup_put_eq.
  - reflexivity.
  - exists fs2. split; [exact H2|].
    destruct (make_docs_index fs1 fs2 H2) as (ses1 & Es1' & _ & _ & Hidx).
    rewrite Es1 in Es1'. injection Es1' as <-.
    split; [exact Hidx|].
    destruct (make_docs_ok fs1 fs2 H2)
      as (ses1 & des3 & fs3 & bs2 & Es1' & Hr & Ed3 & _ & Ed2 & Es2).
    rewrite Es1 in Es1'. injection Es1' as <-.
    destruct (relocate_ok fs1 _ fs3 Hr)
      as (ses1 & des3' & Es1' & _ & _ & _ & Ed3' & _ & Hout).
    rewrite Es1 in Es1'. injection Es1' as <-.
    rewrite Ed3 in Ed3'. injection Ed3' as <-.
    split; [|exact Es2].
    intros m Hm. rewrite (stat_child _ m _ _ Ed2), (stat_child _ m _ _ Ed1).
    rewrite dir_lookup_put_ne by congruence.
    rewrite (Hout m) by (intros []). now rewrite Ed1.
Qed.

Lemma second_run_empties_the_index_witness :
  exists fs2,
    make_docs (snd (make_docs Samples.fresh)) = (inr tt, fs2) /\
    stat INDEX_HTML fs2 =
      inr (File (blit "<h1>Binary builds</h1>" ++ [x0a] ++ blit "<ul>" ++ [x0a]
                   ++ blit "</ul>" ++ [x0a])) /\
    (forall m, m <> lit "index.html" ->
       stat (DOCS_DIR // m) fs2
       = stat (DOCS_DIR // m) (snd (make_docs Samples.fresh))) /\
    stat RELEASE_DIR fs2 = inr (Dir []).
Proof.
  apply (second_run_empties_the_index Samples.fresh).
  vm_compute. reflexivity.
Defined.

(** X11: when every call before the write succeeds and some name of the
    source directory holds a code point that UTF-8 cannot encode, the run
    raises UnicodeEncodeError in the write step, after index.html has
    been opened: every entry has been moved, and index.html is left
    empty. *)
Theorem unencodable_name_empties_the_index fs ses doc fs2 :
  stat RELEASE_DIR fs = inr (Dir ses) ->
  relocate fs = (inr doc, fs2) ->
  (forall ys, stat INDEX_HTML fs2 <> inr (Dir ys)) ->
  forallb (forallb encodable) (dir_names ses) = false ->
  make_docs fs = (inl UnicodeEncodeError, store INDEX_HTML (File []) fs2) /\
  stat INDEX_HTML (store INDEX_HTML (File []) fs2) = inr (File []) /\
  stat RELEASE_DIR (store INDEX_HTML (File []) fs2) = inr (Dir []) /\
  (forall m x, dir_lookup m ses = Some x -> m <> lit "index.html" ->
     stat (DOCS_DIR // m) (store INDEX_HTML (File []) fs2) = inr x).
Proof.
  intros Es Hr Hi He.
  destruct (relocate_ok fs doc fs2 Hr)
    as (ses0 & des2 & Es0 & _ & -> & Es2 & Ed2 & Hin & _).
  rewrite Es in Es0. injection Es0 as <-.
  destruct (store_index_dirs (File []) des2 fs2 Ed2) as [Ed3 Es3].
  split; [|split; [|split]].
  - unfold make_docs, bind. rewrite Hr, (write_index_cases _ des2 fs2 Ed2).
    rewrite <- app_assoc. fold (document (dir_names ses)).
    unfold encode_utf8. rewrite encodable_document, He.
    unfold INDEX_HTML in Hi. rewrite (stat_child _ _ _ _ Ed2) in Hi.
    destruct (dir_lookup (lit "index.html") des2) as [[d|ys]|]; try reflexivity.
    now destruct (Hi ys).
  - unfold INDEX_HTML at 1. now rewrite (stat_child _ _ _ _ Ed3), dir_lookup_put_eq.
  - now rewrite Es3.
  - intros m x Hx Hm. rewrite (stat_child _ m _ _ Ed3).
    rewrite dir_lookup_put_ne by congruence.
    rewrite Hin, Hx; [reflexivity|]. apply dir_lookup_Some. eauto.
Qed.

Lemma unencodable_name_empties_the_index_witness :
  make_docs Samples.undecodable
    = (inl UnicodeEncodeError,
       store INDEX_HTML (File []) (snd (relocate Samples.undecodable))) /\
  stat INDEX_HTML (store INDEX_HTML (File []) (snd (relocate Samples.undecodable)))
    = inr (File []) /\
  stat RELEASE_DIR (store INDEX_HTML (File []) (snd (relocate Samples.undecodable)))
    = inr (Dir []) /\
  (forall m x, dir_lookup m [([0xDCFF], Samples.bin "ELF")] = Some x ->
     m <> lit "index.html" ->
     stat (DOCS_DIR // m)
       (store INDEX_HTML (File []) (snd (relocate Samples.undecodable))) = inr x).
Proof.
  apply (unencodable_name_empties_the_index Samples.undecodable
           [([0xDCFF], Samples.bin "ELF")]
           (index_head ++ list_item [0xDCFF])
           (snd (relocate Samples.undecodable))).
  - reflexivity.
  - vm_compute. reflexivity.
  - intros ys. vm_compute. discriminate.
  - reflexivity.
Defined.

End Conservation.
